(** * The Weaviate vector-store adapter of EvaDB

    A shallow embedding of [evadb/third_party/vector_stores/types.py] and
    [evadb/third_party/vector_stores/weaviate.py].

    The adapter is a thin layer over the [weaviate] client package: every
    method shapes a request, hands it to the client and unwraps the
    answer.  The embedding keeps that structure.  Python values are an
    untyped datatype, exceptions are an error type, and a method is a
    program whose only effects are calls to the client (and, for the
    constructor, reads and writes of the module global
    [_weaviate_init_done]).  A program is run against a handler that
    plays the client. *)

From Stdlib Require Import Floats ZArith String List Bool.
From stdpp Require Import base option strings gmap pretty.

Set Warnings "-register-all".
Open Scope string_scope.

(** ** Python values and exceptions *)

Module Py.

(** The values the adapter handles: JSON-like data coming back from the
    client, arguments of calls, and opaque objects (the client handle,
    the API-key credential). Dictionaries keep insertion order and have
    string keys. *)
Inductive PyVal : Type :=
| PNone
| PBool (b : bool)
| PInt (n : Z)
| PFloat (f : float)
| PStr (s : string)
| PList (l : list PyVal)
| PDict (d : list (string * PyVal))
| PObj (cls : string) (attrs : list (string * PyVal)).

Inductive PyError : Type :=
| TypeError (msg : string)
| KeyError (key : string)
| AttributeError (name : string)
| AssertionError (msg : string)
| UnboundLocalError (name : string)
| ValueError (msg : string)
| NotImplementedError (msg : string)
| ClientError (msg : string).   (* raised inside the client package *)

Inductive result (A : Type) : Type :=
| Ok (a : A)
| Err (e : PyError).
Arguments Ok {A} a.
Arguments Err {A} e.

Definition rbind {A B} (r : result A) (f : A -> result B) : result B :=
  match r with
  | Ok a => f a
  | Err e => Err e
  end.

Fixpoint mapM {A B} (f : A -> result B) (l : list A) : result (list B) :=
  match l with
  | [] => Ok []
  | a :: l' =>
      rbind (f a) (fun b => rbind (mapM f l') (fun bs => Ok (b :: bs)))
  end.

(** [bool(v)] *)
Definition truthy (v : PyVal) : bool :=
  match v with
  | PNone => false
  | PBool b => b
  | PInt n => negb (n =? 0)%Z
  | PFloat f => negb (PrimFloat.eqb f 0%float)
  | PStr s => negb (String.eqb s "")
  | PList l => match l with [] => false | _ => true end
  | PDict d => match d with [] => false | _ => true end
  | PObj _ _ => true
  end.

(** [a or b] *)
Definition py_or (a b : PyVal) : PyVal := if truthy a then a else b.

(** Lookup in a dictionary's items. *)
Fixpoint lookup_key {V} (k : string) (d : list (string * V)) : option V :=
  match d with
  | [] => None
  | (k', v) :: d' => if String.eqb k k' then Some v else lookup_key k d'
  end.

Definition has_key {V} (k : string) (d : list (string * V)) : bool :=
  match lookup_key k d with Some _ => true | None => false end.

Fixpoint remove_key {V} (k : string) (d : list (string * V)) : list (string * V) :=
  match d with
  | [] => []
  | (k', v) :: d' =>
      if String.eqb k k' then remove_key k d' else (k', v) :: remove_key k d'
  end.

(** [x in l] for a list of strings *)
Definition str_in (x : string) (l : list string) : bool :=
  existsb (String.eqb x) l.

(** [v.get(k, default)]: only dictionaries have the method. *)
Definition py_get (v : PyVal) (k : string) (default : PyVal) : result PyVal :=
  match v with
  | PDict d => Ok (match lookup_key k d with Some x => x | None => default end)
  | _ => Err (AttributeError "get")
  end.

(** [v[k]] with a string key: a dictionary answers or raises
    [KeyError]; nothing else can be indexed by a string. *)
Definition py_getitem (v : PyVal) (k : string) : result PyVal :=
  match v with
  | PDict d =>
      match lookup_key k d with
      | Some x => Ok x
      | None => Err (KeyError k)
      end
  | _ => Err (TypeError "not subscriptable")
  end.

Fixpoint chars (s : string) : list PyVal :=
  match s with
  | EmptyString => []
  | String c s' => PStr (String c EmptyString) :: chars s'
  end.

(** [for item in v]: a list yields its elements, a dictionary its
    keys, a string its characters; other values are not iterable. *)
Definition py_iter (v : PyVal) : result (list PyVal) :=
  match v with
  | PList l => Ok l
  | PDict d => Ok (map (fun kv => PStr (fst kv)) d)
  | PStr s => Ok (chars s)
  | _ => Err (TypeError "not iterable")
  end.

(** *** Binding the arguments of a call

    A signature lists the parameters after [self], each with its
    default if it has one.  Positional arguments fill the parameters
    in order, keyword arguments by name; a surplus argument, a
    parameter given twice, an unknown keyword or a parameter left
    without value raises [TypeError]. *)
Definition Signature : Type := list (string * option PyVal).

Fixpoint bind_args (sig : Signature) (args : list PyVal)
         (kwargs : list (string * PyVal)) : result (list (string * PyVal)) :=
  match sig with
  | [] =>
      match args, kwargs with
      | [], [] => Ok []
      | _ :: _, _ => Err (TypeError "too many positional arguments")
      | [], _ :: _ => Err (TypeError "unexpected keyword argument")
      end
  | (p, dflt) :: sig' =>
      match args with
      | a :: args' =>
          if has_key p kwargs
          then Err (TypeError "multiple values for argument")
          else rbind (bind_args sig' args' kwargs)
                     (fun rest => Ok ((p, a) :: rest))
      | [] =>
          match lookup_key p kwargs, dflt with
          | Some v, _ | None, Some v =>
              rbind (bind_args sig' [] (remove_key p kwargs))
                    (fun rest => Ok ((p, v) :: rest))
          | None, None => Err (TypeError ("missing required argument: " ++ p))
          end
      end
  end.

Definition bound (k : string) (b : list (string * PyVal)) : PyVal :=
  match lookup_key k b with Some v => v | None => PNone end.

Definition of_strs (l : list string) : PyVal := PList (map PStr l).
Definition of_floats (l : list float) : PyVal := PList (map PFloat l).
Definition of_opt {A} (f : A -> PyVal) (o : option A) : PyVal :=
  match o with Some a => f a | None => PNone end.

End Py.
Export Py.

(** ** The client and programs over it *)

Module Client.

(** A [Get] query under construction: [client.query.get(cls, props)]
    followed by the [with_...] calls, in the order they are made. *)
Inductive Clause : Type :=
| with_near_vector (content : PyVal)
| with_near_text (content : PyVal)
| with_bm25 (query properties : PyVal)
| with_hybrid (query : PyVal)
| with_where (content : PyVal)
| with_generate (kwargs : list (string * PyVal))
| with_autocut (autocut : PyVal)
| with_limit (limit : PyVal)
| with_additional (properties : PyVal).

Record GetBuilder : Type := {
  get_class : PyVal;
  get_properties : PyVal;
  clauses : list Clause
}.

Definition query_get (cls props : PyVal) : GetBuilder :=
  {| get_class := cls; get_properties := props; clauses := [] |}.

Definition add_clause (q : GetBuilder) (c : Clause) : GetBuilder :=
  {| get_class := get_class q;
     get_properties := get_properties q;
     clauses := clauses q ++ [c] |}.

(** The methods of a client object the adapter calls. *)
Inductive ClientOp : Type :=
| schema_get
| schema_exists (class_name : PyVal)
| schema_delete_class (class_name : PyVal)
| schema_create_class (schema_class : PyVal)
| batch_enter
| batch_add_data_object (data_object class_name : PyVal)
| batch_exit
| query_do (q : GetBuilder)
| data_object_get_by_id (uuid : PyVal)
| data_object_update (data_object class_name uuid : PyVal)
| data_object_replace (data_object class_name uuid : PyVal).

(** What the adapter asks of its surroundings. *)
Inductive Request : Type :=
| try_to_import_weaviate_client
| weaviate_Client (url auth_client_secret : PyVal)
| on_client (client : PyVal) (op : ClientOp).

(** A method body: it returns, raises, calls out (the continuation
    receives the value or the exception of the call), or touches the
    module global [_weaviate_init_done]. *)
Inductive Prog (A : Type) : Type :=
| Ret (a : A)
| Raise (e : PyError)
| Call (r : Request) (k : result PyVal -> Prog A)
| GetInitDone (k : bool -> Prog A)
| SetInitDone (b : bool) (k : Prog A).
Arguments Ret {A} a.
Arguments Raise {A} e.
Arguments Call {A} r k.
Arguments GetInitDone {A} k.
Arguments SetInitDone {A} b k.

Fixpoint bind {A B} (p : Prog A) (f : A -> Prog B) : Prog B :=
  match p with
  | Ret a => f a
  | Raise e => Raise e
  | Call r k => Call r (fun x => bind (k x) f)
  | GetInitDone k => GetInitDone (fun b => bind (k b) f)
  | SetInitDone b k => SetInitDone b (bind k f)
  end.

Definition lift {A} (r : result A) : Prog A :=
  match r with
  | Ok a => Ret a
  | Err e => Raise e
  end.

(** A call whose exception propagates. *)
Definition call (r : Request) : Prog PyVal := Call r lift.

(** The body of a [with] statement followed by the context manager's
    [__exit__]: it runs however the body ends; an exception of the body
    is swallowed when [__exit__] returns a true value, and an exception
    of [__exit__] replaces it. *)
Fixpoint with_exit (body : Prog unit) (exit : Request) : Prog unit :=
  match body with
  | Ret _ =>
      Call exit (fun x => match x with Ok _ => Ret tt | Err e => Raise e end)
  | Raise e =>
      Call exit (fun x =>
                   match x with
                   | Ok v => if truthy v then Ret tt else Raise e
                   | Err e' => Raise e'
                   end)
  | Call r k => Call r (fun x => with_exit (k x) exit)
  | GetInitDone k => GetInitDone (fun b => with_exit (k b) exit)
  | SetInitDone b k => SetInitDone b (with_exit k exit)
  end.

(** [for x in l: body x] *)
Fixpoint for_each {A} (l : list A) (body : A -> Prog unit) : Prog unit :=
  match l with
  | [] => Ret tt
  | a :: l' => bind (body a) (fun _ => for_each l' body)
  end.

(** The process a program runs in: the module global and the state of
    whatever stands behind the client. *)
Record World (S : Type) : Type := {
  weaviate_init_done : bool;
  remote : S
}.
Arguments weaviate_init_done {S} w.
Arguments remote {S} w.

Definition Handler (S : Type) : Type := Request -> S -> result PyVal * S.

Definition set_remote {S} (w : World S) (s : S) : World S :=
  {| weaviate_init_done := weaviate_init_done w; remote := s |}.

Definition set_init_done {S} (w : World S) (b : bool) : World S :=
  {| weaviate_init_done := b; remote := remote w |}.

Fixpoint run {S A} (h : Handler S) (p : Prog A) (w : World S)
  : result A * World S :=
  match p with
  | Ret a => (Ok a, w)
  | Raise e => (Err e, w)
  | Call r k =>
      let (x, s) := h r (remote w) in run h (k x) (set_remote w s)
  | GetInitDone k => run h (k (weaviate_init_done w)) w
  | SetInitDone b k => run h k (set_init_done w b)
  end.

(** The requests a run makes, in order. *)
Fixpoint calls {S A} (h : Handler S) (p : Prog A) (w : World S) : list Request :=
  match p with
  | Ret _ | Raise _ => []
  | Call r k =>
      let (x, s) := h r (remote w) in r :: calls h (k x) (set_remote w s)
  | GetInitDone k => calls h (k (weaviate_init_done w)) w
  | SetInitDone b k => calls h k (set_init_done w b)
  end.

End Client.
Export Client.

Notation "'let*' x ':=' p 'in' q" := (bind p (fun x => q))
  (at level 10, x name, p at level 100, q at level 200).

(** ** types.py

    The dataclasses, as records. Where several dataclasses use the same
    field name ([uuid], [query], [properties], [limit]) the projections
    carry a prefix; [FeaturePayload.id] is [fp_id]. *)

Module Types.

Record FeaturePayload : Type := {
  fp_id : Z;
  fp_embedding : list float
}.

Record VectorIndexQuery : Type := {
  embedding : list float;
  top_k : Z
}.

(** The dataclass declares three fields and gives none a default. *)
Record VectorIndexQueryResult : Type := {
  similarities : PyVal;
  ids : PyVal;
  others : PyVal
}.

Definition VectorIndexQueryResult_fields : Signature :=
  [("similarities", None); ("ids", None); ("others", None)].

(** The [__init__] that [@dataclass] generates. *)
Definition VectorIndexQueryResult_init (args : list PyVal)
           (kwargs : list (string * PyVal)) : result VectorIndexQueryResult :=
  rbind (bind_args VectorIndexQueryResult_fields args kwargs)
        (fun b => Ok {| similarities := bound "similarities" b;
                        ids := bound "ids" b;
                        others := bound "others" b |}).

Record ObjectUpdatePayload : Type := {
  upd_uuid : string;
  upd_properties : PyVal
}.

Record ObjectReplacePayload : Type := {
  rep_uuid : string;
  rep_properties : PyVal
}.

Record ObjectPropertyDeletionPayload : Type := {
  uuid : string;
  properties_to_delete : list string
}.

Record SearchQueryPayload : Type := {
  sq_query : string;
  sq_properties : option (list string);
  sq_limit : Z;
  sq_autocut : option Z;
  sq_additional : option (list string)
}.

Record GenerativeSearchPayload : Type := {
  g_query : string;
  prompt : string;
  g_properties : option (list string);
  g_limit : Z;
  grouped_task : bool;
  grouped_properties : option (list string)
}.

Record LabelBasedSearchPayload : Type := {
  l_properties : list string;
  filters : PyVal;
  l_limit : Z
}.

(** [VectorStore.persist]: takes nothing besides [self], does nothing,
    returns [None]. The argument list of the call is kept so that the
    binding of arguments is part of the method. *)
Definition persist (args : list PyVal) : Prog PyVal :=
  let* _ := lift (bind_args [] args []) in Ret PNone.

(** The names bound in the body of [class VectorStore]. *)
Definition VectorStore_dict : list string :=
  ["create"; "add"; "persist"; "query"; "delete";
   "update_object_properties"; "replace_object";
   "delete_object_properties"; "keyword_search"; "hybrid_search";
   "generative_search"; "label_based_search"].

End Types.
Export Types.

(** ** weaviate.py *)

Module Weaviate.

Record WeaviateVectorStore : Type := {
  _collection_name : string;
  _api_key : PyVal;
  _api_url : PyVal;
  _client : PyVal
}.

(** The names bound in the body of [class WeaviateVectorStore]. *)
Definition WeaviateVectorStore_dict : list string :=
  ["__init__"; "create"; "add"; "delete"; "query";
   "update_object_properties"; "replace_object";
   "delete_object_properties"; "keyword_search"; "hybrid_search";
   "generative_search"; "label_based_search"].

(** The attributes [__init__] sets on the instance. *)
Definition instance_dict : list string :=
  ["_collection_name"; "_api_key"; "_api_url"; "_client"].

(** The names every class body binds without saying so, and the ones
    the first class of a hierarchy adds to them. *)
Definition class_implicit : list string := ["__module__"; "__doc__"].
Definition base_implicit : list string := ["__dict__"; "__weakref__"].

(** The names bound in [object]. *)
Definition object_dict : list string :=
  ["__class__"; "__delattr__"; "__dir__"; "__doc__"; "__eq__"; "__format__";
   "__ge__"; "__getattribute__"; "__gt__"; "__hash__"; "__init__";
   "__init_subclass__"; "__le__"; "__lt__"; "__ne__"; "__new__"; "__reduce__";
   "__reduce_ex__"; "__repr__"; "__setattr__"; "__sizeof__"; "__str__";
   "__subclasshook__"].

(** Looking a name up on an instance, and where it is found: among the
    instance's own attributes, in the class, in its base, in [object];
    a name bound in none of them raises [AttributeError]. *)
Definition method_owner (name : string) : result string :=
  if str_in name instance_dict then Ok "instance"
  else if str_in name (WeaviateVectorStore_dict ++ class_implicit)%list
  then Ok "WeaviateVectorStore"
  else if str_in name (VectorStore_dict ++ class_implicit ++ base_implicit)%list
  then Ok "VectorStore"
  else if str_in name object_dict then Ok "object"
  else Err (AttributeError name).

Definition kwargs_get (kwargs : list (string * PyVal)) (k : string) : PyVal :=
  match lookup_key k kwargs with Some v => v | None => PNone end.

Definition environ_get (environ : list (string * string)) (k : string) : PyVal :=
  match lookup_key k environ with Some v => PStr v | None => PNone end.

(** [v = kwargs.get(k)], then [if not v: v = os.environ.get(k)] *)
Definition setting (kwargs : list (string * PyVal))
           (environ : list (string * string)) (k : string) : PyVal :=
  let v := kwargs_get kwargs k in
  if negb (truthy v) then environ_get environ k else v.

Definition AuthApiKey (api_key : PyVal) : PyVal :=
  PObj "AuthApiKey" [("api_key", api_key)].

(** [WeaviateVectorStore.__init__]. The local [client] is bound only
    inside the [if]; it is read after it. *)
Definition __init__ (collection_name : string)
           (kwargs : list (string * PyVal))
           (environ : list (string * string)) : Prog WeaviateVectorStore :=
  let* _ := call try_to_import_weaviate_client in
  let api_key := setting kwargs environ "WEAVIATE_API_KEY" in
  if negb (truthy api_key)
  then Raise (AssertionError "Please set your `WEAVIATE_API_KEY`")
  else
    let api_url := setting kwargs environ "WEAVIATE_API_URL" in
    if negb (truthy api_url)
    then Raise (AssertionError "Please set your `WEAVIATE_API_URL`")
    else
      GetInitDone (fun done =>
        let* client :=
          (if negb done then
             let* client := call (weaviate_Client api_url (AuthApiKey api_key)) in
             let* _ := call (on_client client schema_get) in
             SetInitDone true (Ret (Some client))
           else Ret None) in
        match client with
        | Some c =>
            Ret {| _collection_name := collection_name;
                   _api_key := api_key;
                   _api_url := api_url;
                   _client := c |}
        | None => Raise (UnboundLocalError "client")
        end).

Section Methods.

Variable self : WeaviateVectorStore.

Let name : string := _collection_name self.
Let client : PyVal := _client self.

Definition collection_obj (vectorizer properties module_config : PyVal) : PyVal :=
  PDict [("class", PStr name);
         ("properties", py_or properties (PList []));
         ("vectorizer", vectorizer);
         ("moduleConfig", py_or module_config (PDict []))].

Definition create (vectorizer properties module_config : PyVal) : Prog PyVal :=
  let* found := call (on_client client (schema_exists (PStr name))) in
  let* _ :=
    (if truthy found
     then call (on_client client (schema_delete_class (PStr name)))
     else Ret PNone) in
  let* _ := call (on_client client
                    (schema_create_class
                       (collection_obj vectorizer properties module_config))) in
  Ret PNone.

(** [{"id": item.id, "vector": item.embedding}] *)
Definition data_object (item : FeaturePayload) : PyVal :=
  PDict [("id", PInt (fp_id item)); ("vector", of_floats (fp_embedding item))].

(** [batch] is what [__enter__] returned; [add_data_object] is
    addressed to it, and what a batch answers, or a value that is no
    batch object at all, is left to the client. *)
Definition add (payload : list FeaturePayload) : Prog PyVal :=
  let* batch := call (on_client client batch_enter) in
  let* _ :=
    with_exit
      (for_each payload (fun item =>
         let* _ := call (on_client batch
                           (batch_add_data_object (data_object item) (PStr name))) in
         Ret tt))
      (on_client client batch_exit) in
  Ret PNone.

(** [def delete(self)]: no parameter besides [self]. *)
Definition delete (args : list PyVal) : Prog PyVal :=
  let* _ := lift (bind_args [] args []) in
  let* _ := call (on_client client (schema_delete_class (PStr name))) in
  Ret PNone.

Definition query_request (q : VectorIndexQuery) : GetBuilder :=
  add_clause
    (add_clause (query_get (PStr name) (PList [PStr "*"]))
                (with_near_vector (PDict [("vector", of_floats (embedding q))])))
    (with_limit (PInt (top_k q))).

(** [response.get("data", {}).get("Get", {}).get(name, [])] *)
Definition results_or_empty (response : PyVal) : result PyVal :=
  rbind (py_get response "data" (PDict [])) (fun data =>
  rbind (py_get data "Get" (PDict [])) (fun got =>
  py_get got name (PList []))).

Definition distance_of (item : PyVal) : result PyVal :=
  rbind (py_getitem item "_additional") (fun a => py_getitem a "distance").

Definition id_of (item : PyVal) : result PyVal := py_getitem item "id".

(** The two comprehensions of [query]: the lists it hands to the
    constructor of its result. *)
Definition query_lists (response : PyVal) : result (PyVal * PyVal) :=
  rbind (results_or_empty response) (fun results =>
  rbind (rbind (py_iter results) (mapM distance_of)) (fun sims =>
  rbind (rbind (py_iter results) (mapM id_of)) (fun idl =>
  Ok (PList sims, PList idl)))).

(** [query] up to its [return]: the request, and the two lists. *)
Definition query_body (q : VectorIndexQuery) : Prog (PyVal * PyVal) :=
  let* response := call (on_client client (query_do (query_request q))) in
  lift (query_lists response).

(** [return VectorIndexQueryResult(similarities, ids)] *)
Definition query (q : VectorIndexQuery) : Prog VectorIndexQueryResult :=
  let* lists := query_body q in
  lift (VectorIndexQueryResult_init [fst lists; snd lists] []).

Definition update_object_properties (payload : ObjectUpdatePayload) : Prog PyVal :=
  let* _ := call (on_client client
                    (data_object_update (upd_properties payload)
                                        (PStr name) (PStr (upd_uuid payload)))) in
  Ret PNone.

Definition replace_object (payload : ObjectReplacePayload) : Prog PyVal :=
  let* _ := call (on_client client
                    (data_object_replace (rep_properties payload)
                                         (PStr name) (PStr (rep_uuid payload)))) in
  Ret PNone.

(** [d.items()] *)
Definition py_items (v : PyVal) : result (list (string * PyVal)) :=
  match v with
  | PDict d => Ok d
  | _ => Err (AttributeError "items")
  end.

(** The dictionary comprehension of [delete_object_properties]. *)
Definition updated_properties (object_data : list (string * PyVal))
           (to_delete : list string) : list (string * PyVal) :=
  List.filter (fun kv => negb (str_in (fst kv) to_delete)) object_data.

Definition delete_object_properties (payload : ObjectPropertyDeletionPayload)
  : Prog PyVal :=
  let* obj := call (on_client client
                      (data_object_get_by_id (PStr (uuid payload)))) in
  let* object_data := lift (py_getitem obj "properties") in
  let* items := lift (py_items object_data) in
  let* _ := call (on_client client
                    (data_object_replace
                       (PDict (updated_properties items (properties_to_delete payload)))
                       (PStr name) (PStr (uuid payload)))) in
  Ret PNone.

(** [data['Get'][name]] after [data = response.get('data', {})] *)
Definition results_strict (response : PyVal) : result PyVal :=
  rbind (py_get response "data" (PDict [])) (fun data =>
  rbind (py_getitem data "Get") (fun got =>
  py_getitem got name)).

(** [VectorIndexQueryResult([], [], others=results)] *)
Definition in_others (results : PyVal) : result VectorIndexQueryResult :=
  VectorIndexQueryResult_init [PList []; PList []] [("others", results)].

Definition keyword_request (payload : SearchQueryPayload) : GetBuilder :=
  let props := of_opt of_strs (sq_properties payload) in
  let search_query :=
    add_clause (query_get (PStr name) props)
               (with_bm25 (PStr (sq_query payload)) props) in
  let search_query :=
    match sq_autocut payload with
    | Some a => add_clause search_query (with_autocut (PInt a))
    | None => search_query
    end in
  add_clause search_query (with_limit (PInt (sq_limit payload))).

Definition keyword_search (payload : SearchQueryPayload)
  : Prog VectorIndexQueryResult :=
  let* response := call (on_client client (query_do (keyword_request payload))) in
  let* results := lift (results_strict response) in
  lift (in_others results).

Definition hybrid_request (payload : SearchQueryPayload) : GetBuilder :=
  add_clause
    (add_clause
       (add_clause (query_get (PStr name) (of_opt of_strs (sq_properties payload)))
                   (with_hybrid (PStr (sq_query payload))))
       (with_limit (PInt (sq_limit payload))))
    (with_additional (PList [PStr "distance"])).

Definition hybrid_search (payload : SearchQueryPayload)
  : Prog VectorIndexQueryResult :=
  let* response := call (on_client client (query_do (hybrid_request payload))) in
  let* results := lift (results_strict response) in
  lift (in_others results).

Definition generative_request (payload : GenerativeSearchPayload) : GetBuilder :=
  let search_query :=
    add_clause (query_get (PStr name) (of_opt of_strs (g_properties payload)))
               (with_near_text
                  (PDict [("concepts", PList [PStr (g_query payload)])])) in
  let search_query :=
    if grouped_task payload
    then add_clause search_query
           (with_generate
              [("grouped_task", PStr (prompt payload));
               ("grouped_properties",
                of_opt of_strs (grouped_properties payload))])
    else add_clause search_query
           (with_generate [("single_prompt", PStr (prompt payload))]) in
  add_clause search_query (with_limit (PInt (g_limit payload))).

Definition generative_search (payload : GenerativeSearchPayload)
  : Prog VectorIndexQueryResult :=
  let* response := call (on_client client (query_do (generative_request payload))) in
  let* results := lift (results_strict response) in
  lift (in_others results).

Definition label_request (payload : LabelBasedSearchPayload) : GetBuilder :=
  add_clause
    (add_clause (query_get (PStr name) (of_strs (l_properties payload)))
                (with_where (filters payload)))
    (with_limit (PInt (l_limit payload))).

Definition label_based_search (payload : LabelBasedSearchPayload)
  : Prog VectorIndexQueryResult :=
  let* response := call (on_client client (query_do (label_request payload))) in
  let* results := lift (results_or_empty response) in
  lift (in_others results).

End Methods.

End Weaviate.
Export Weaviate.

(** ** A reference remote

    The service behind the client is not part of the repository.  For
    running the adapter, the part of it the adapter relies on is modelled
    as a schema of named collections, each holding its class object and
    the data objects added to it.  Two things are left open and taken as
    parameters: how a [Get] query is answered (the search engine), and
    whether deleting a class that does not exist is an error. *)

Module Reference.

Record Collection : Type := {
  schema_class : PyVal;
  members : list (string * PyVal)      (* uuid, properties *)
}.

Record Remote : Type := {
  collections : gmap string Collection;
  next_uuid : nat
}.

Definition empty_remote : Remote :=
  {| collections := ∅; next_uuid := 0 |}.

Definition with_collections (s : Remote) (m : gmap string Collection) : Remote :=
  {| collections := m; next_uuid := next_uuid s |}.

Definition fresh_collection (obj : PyVal) : Collection :=
  {| schema_class := obj; members := [] |}.

Definition find_member (u : string) (s : Remote) : option (string * PyVal) :=
  head (omap (fun nc : string * Collection =>
                option_map (pair (fst nc)) (lookup_key u (members (snd nc))))
             (map_to_list (collections s))).

Fixpoint set_member (u : string) (props : PyVal) (l : list (string * PyVal))
  : list (string * PyVal) :=
  match l with
  | [] => []
  | (u', p) :: l' =>
      if String.eqb u u' then (u', props) :: l' else (u', p) :: set_member u props l'
  end.

(** [old | new] on dictionaries: keys of [new] overwrite or extend. *)
Definition merge_props (old new : list (string * PyVal)) : list (string * PyVal) :=
  fold_left (fun acc kv =>
               if has_key (fst kv) acc
               then map (fun kv' => if String.eqb (fst kv') (fst kv) then kv else kv') acc
               else (acc ++ [kv])%list)
            new old.

Section Serve.

Variable answer : GetBuilder -> Remote -> result PyVal.
Variable strict_delete : bool.

Definition serve_op (receiver : PyVal) (op : ClientOp) (s : Remote)
  : result PyVal * Remote :=
  match op with
  | schema_get =>
      (Ok (PDict [("classes",
                   PList (map (fun nc => schema_class (snd nc))
                              (map_to_list (collections s))))]), s)
  | schema_exists (PStr n) =>
      (Ok (PBool (match collections s !! n with Some _ => true | None => false end)), s)
  | schema_delete_class (PStr n) =>
      match collections s !! n with
      | Some _ => (Ok PNone, with_collections s (base.delete n (collections s)))
      | None =>
          if strict_delete then (Err (ClientError "no such class"), s)
          else (Ok PNone, s)
      end
  | schema_create_class obj =>
      match py_getitem obj "class" with
      | Ok (PStr n) =>
          match collections s !! n with
          | Some _ => (Err (ClientError "class already exists"), s)
          | None =>
              (Ok PNone,
               with_collections s (<[n := fresh_collection obj]> (collections s)))
          end
      | _ => (Err (ClientError "invalid class"), s)
      end
  | batch_enter => (Ok receiver, s)
  | batch_add_data_object d (PStr n) =>
      match collections s !! n with
      | Some c =>
          let u := pretty (next_uuid s) in
          (Ok (PStr u),
           {| collections :=
                <[n := {| schema_class := schema_class c;
                          members := members c ++ [(u, d)] |}]> (collections s);
              next_uuid := S (next_uuid s) |})
      | None => (Err (ClientError "no such class"), s)
      end
  | batch_exit => (Ok PNone, s)
  | query_do q => (answer q s, s)
  | data_object_get_by_id (PStr u) =>
      match find_member u s with
      | Some (n, props) =>
          (Ok (PDict [("class", PStr n); ("id", PStr u); ("properties", props)]), s)
      | None => (Ok PNone, s)
      end
  | data_object_update (PDict d) (PStr n) (PStr u) =>
      match collections s !! n with
      | Some c =>
          match lookup_key u (members c) with
          | Some (PDict old) =>
              (Ok PNone,
               with_collections s
                 (<[n := {| schema_class := schema_class c;
                            members := set_member u (PDict (merge_props old d))
                                                  (members c) |}]> (collections s)))
          | _ => (Err (ClientError "no such object"), s)
          end
      | None => (Err (ClientError "no such class"), s)
      end
  | data_object_replace d (PStr n) (PStr u) =>
      match collections s !! n with
      | Some c =>
          if has_key u (members c)
          then (Ok PNone,
                with_collections s
                  (<[n := {| schema_class := schema_class c;
                             members := set_member u d (members c) |}]>
                     (collections s)))
          else (Err (ClientError "no such object"), s)
      | None => (Err (ClientError "no such class"), s)
      end
  | _ => (Err (TypeError "bad argument"), s)
  end.

Definition serve : Handler Remote :=
  fun r s =>
    match r with
    | try_to_import_weaviate_client => (Ok PNone, s)
    | weaviate_Client url auth =>
        (Ok (PObj "Client" [("url", url); ("auth_client_secret", auth)]), s)
    | on_client receiver op => serve_op receiver op s
    end.

End Serve.

(** The ["id"] properties of the objects held by collection [n]. *)
Definition id_property (m : string * PyVal) : option PyVal :=
  match py_getitem (snd m) "id" with
  | Ok i => Some i
  | Err _ => None
  end.

Definition stored_ids (s : Remote) (n : string) : list PyVal :=
  match collections s !! n with
  | Some c => omap id_property (members c)
  | None => []
  end.

(** An engine is sound when the ids [query] reads from its answer are
    ids of objects the collection holds at that moment. *)
Definition engine_sound (answer : GetBuilder -> Remote -> result PyVal) : Prop :=
  forall (self : WeaviateVectorStore) (q : GetBuilder) (s : Remote)
         (response sims : PyVal) (idl : list PyVal),
    get_class q = PStr (_collection_name self) ->
    answer q s = Ok response ->
    query_lists self response = Ok (sims, PList idl) ->
    forall i, In i idl -> In i (stored_ids s (_collection_name self)).

(** An engine that ranks nothing: it answers with every object of the
    collection that has an ["id"], each at distance zero, and with a
    GraphQL error when the collection does not exist. *)
Definition flat_item (i : PyVal) : PyVal :=
  PDict [("id", i); ("_additional", PDict [("distance", PFloat 0)])].

Definition flat_scan (q : GetBuilder) (s : Remote) : result PyVal :=
  match get_class q with
  | PStr n =>
      match collections s !! n with
      | Some c =>
          Ok (PDict [("data",
                      PDict [("Get",
                              PDict [(n, PList (map flat_item
                                                    (omap id_property (members c))))])])])
      | None => Ok (PDict [("errors", PList [PDict [("message", PStr "no such class")]])])
      end
  | _ => Err (TypeError "bad argument")
  end.

(** A search engine that finds nothing. *)
Definition no_hits (q : GetBuilder) (s : Remote) : result PyVal :=
  match get_class q with
  | PStr n => Ok (PDict [("data", PDict [("Get", PDict [(n, PList [])])])])
  | _ => Err (TypeError "bad argument")
  end.

(** A search engine that answers every query with the same response. *)
Definition scripted (response : PyVal) (q : GetBuilder) (s : Remote)
  : result PyVal := Ok response.

End Reference.
Export Reference.

(** ** Concrete stores, worlds and responses used by the examples *)

Module Fixtures.

Definition store (name : string) : WeaviateVectorStore :=
  {| _collection_name := name;
     _api_key := PStr "secret";
     _api_url := PStr "https://example.weaviate.network";
     _client := PObj "Client" [] |}.

Definition fresh_world : World Remote :=
  {| weaviate_init_done := false; remote := empty_remote |}.

(** One item of a [Get] answer, as [query] reads it. *)
Definition hit (i distance : PyVal) : PyVal :=
  PDict [("id", i); ("_additional", PDict [("distance", distance)])].

Definition get_response (name : string) (items : list PyVal) : PyVal :=
  PDict [("data", PDict [("Get", PDict [(name, PList items)])])].

(** A GraphQL answer that reports an error and carries no data. *)
Definition error_response : PyVal :=
  PDict [("errors", PList [PDict [("message", PStr "Cannot query field")]])].

(** A remote holding collection ["Docs"] with one object. *)
Definition docs_remote : Remote :=
  {| collections :=
       {[ "Docs" :=
            {| schema_class := PDict [("class", PStr "Docs")];
               members :=
                 [("0", PDict [("title", PStr "a"); ("year", PInt 2023);
                               ("draft", PBool true)])] |} ]};
     next_uuid := 1 |}.

Definition docs_world : World Remote :=
  {| weaviate_init_done := true; remote := docs_remote |}.

(** A remote holding collection ["Vecs"] with the object [add] stores
    for [FeaturePayload(7, [1.0, 0.0])]. *)
Definition vecs_remote : Remote :=
  {| collections :=
       {[ "Vecs" :=
            {| schema_class := PDict [("class", PStr "Vecs")];
               members :=
                 [("0", PDict [("id", PInt 7);
                               ("vector", PList [PFloat 1; PFloat 0])])] |} ]};
     next_uuid := 1 |}.

Definition vecs_world : World Remote :=
  {| weaviate_init_done := true; remote := vecs_remote |}.

Definition credentials : list (string * PyVal) :=
  [("WEAVIATE_API_KEY", PStr "secret");
   ("WEAVIATE_API_URL", PStr "https://example.weaviate.network")].

(** A client without state whose batch is the client object itself
    ([__enter__] returns its receiver) and that answers [None] to
    everything else. *)
Definition plain_client : Handler unit :=
  fun r s =>
    match r with
    | on_client c batch_enter => (Ok c, s)
    | _ => (Ok PNone, s)
    end.



(** The client [h], except that the requests [bad] picks out raise
    inside the client and change nothing. *)
Definition failing {S : Type} (bad : Request -> bool) (h : Handler S) : Handler S :=
  fun r s => if bad r then (Err (ClientError "refused"), s) else h r s.

Definition is_schema_get (r : Request) : bool :=
  match r with on_client _ schema_get => true | _ => false end.

Definition is_delete_class (r : Request) : bool :=
  match r with on_client _ (schema_delete_class _) => true | _ => false end.

Definition is_create_class (r : Request) : bool :=
  match r with on_client _ (schema_create_class _) => true | _ => false end.

Definition is_add_data_object (r : Request) : bool :=
  match r with on_client _ (batch_add_data_object _ _) => true | _ => false end.

End Fixtures.
Import Fixtures.

(** ** The four searches other than [query], as one call *)

Inductive Search : Type :=
| Keyword (payload : SearchQueryPayload)
| Hybrid (payload : SearchQueryPayload)
| Generative (payload : GenerativeSearchPayload)
| LabelBased (payload : LabelBasedSearchPayload).

Definition search_request (self : WeaviateVectorStore) (c : Search) : GetBuilder :=
  match c with
  | Keyword p => keyword_request self p
  | Hybrid p => hybrid_request self p
  | Generative p => generative_request self p
  | LabelBased p => label_request self p
  end.

Definition search (self : WeaviateVectorStore) (c : Search)
  : Prog VectorIndexQueryResult :=
  match c with
  | Keyword p => keyword_search self p
  | Hybrid p => hybrid_search self p
  | Generative p => generative_search self p
  | LabelBased p => label_based_search self p
  end.

(** The response is a dictionary whose ["data"]["Get"][name] is [results]. *)
Definition carries (name : string) (response results : PyVal) : Prop :=
  exists d dd g,
    response = PDict d /\
    lookup_key "data" d = Some (PDict dd) /\
    lookup_key "Get" dd = Some (PDict g) /\
    lookup_key name g = Some results.

(** * Properties *)

(** ** Running programs *)

Section Run.

Context {S : Type} (h : Handler S).

Lemma run_bind {A B} (p : Prog A) (f : A -> Prog B) (w : World S) :
  run h (bind p f) w =
  match run h p w with
  | (Ok a, w') => run h (f a) w'
  | (Err e, w') => (Err e, w')
  end.
Proof.
  revert w. induction p as [a | e | r k IH | k IH | b k IH]; intros w; simpl.
  - reflexivity.
  - reflexivity.
  - destruct (h r (remote w)) as [x s]. apply IH.
  - apply IH.
  - apply IH.
Qed.

Lemma run_lift {A} (r : result A) (w : World S) :
  run h (lift r) w = (r, w).
Proof. destruct r; reflexivity. Qed.

Lemma run_call (r : Request) (w : World S) :
  run h (call r) w = (fst (h r (remote w)), set_remote w (snd (h r (remote w)))).
Proof.
  unfold call. simpl. destruct (h r (remote w)) as [x s]. simpl. apply run_lift.
Qed.

Lemma set_remote_same (w : World S) : set_remote w (remote w) = w.
Proof. destruct w; reflexivity. Qed.

End Run.

(** ** The result of [query] *)

(** No argument list of two positionals satisfies the three required
    fields of the result dataclass. *)
Lemma VectorIndexQueryResult_needs_others (a b : PyVal) :
  VectorIndexQueryResult_init [a; b] [] =
  Err (TypeError "missing required argument: others").
Proof. reflexivity. Qed.

(** C1. [query] does not return its result. If the client raises, or
    its answer cannot be unwrapped, that exception propagates; in every
    other case, with both lists built, the call ends in the [TypeError]
    of the constructor, which is given two of its three required
    fields. *)
Theorem query_never_returns :
  forall (S : Type) (h : Handler S) (self : WeaviateVectorStore)
         (q : VectorIndexQuery) (w : World S),
    fst (run h (query self q) w) =
    match fst (run h (query_body self q) w) with
    | Ok _ => Err (TypeError "missing required argument: others")
    | Err e => Err e
    end.
Proof.
  intros S h self q w. unfold query. rewrite run_bind.
  destruct (run h (query_body self q) w) as [[lists | e] w'].
  - rewrite run_lift. reflexivity.
  - reflexivity.
Qed.

(** [query] on an answer with one hit: the lists are built, the
    constructor refuses them. *)
Example query_on_one_hit :
  let h := serve (scripted (get_response "Vecs" [hit (PInt 7) (PFloat 0)])) false in
  let q := {| embedding := [1%float; 0%float]; top_k := 1 |} in
  run h (query_body (store "Vecs") q) vecs_world =
    (Ok (PList [PFloat 0], PList [PInt 7]), vecs_world) /\
  run h (query (store "Vecs") q) vecs_world =
    (Err (TypeError "missing required argument: others"), vecs_world).
Proof. split; reflexivity. Qed.

Lemma lookup_key_here {V} (k : string) (v : V) (d : list (string * V)) :
  lookup_key k ((k, v) :: d) = Some v.
Proof. simpl. rewrite String.eqb_refl. reflexivity. Qed.

Lemma query_lists_get_response (self : WeaviateVectorStore) (items : list PyVal) :
  query_lists self (get_response (_collection_name self) items) =
  rbind (mapM (distance_of) items) (fun sims =>
  rbind (mapM id_of items) (fun idl => Ok (PList sims, PList idl))).
Proof.
  unfold query_lists, results_or_empty, get_response. simpl.
  rewrite String.eqb_refl. reflexivity.
Qed.

(** C2. With [top_k = 0], against a remote that finds nothing, [query]
    builds two empty lists and then raises the constructor's
    [TypeError] instead of returning the empty result. *)
Theorem query_top_k_zero_raises :
  forall (self : WeaviateVectorStore) (emb : list float) (strict : bool)
         (w : World Remote),
    let q := {| embedding := emb; top_k := 0 |} in
    clauses (query_request self q) =
      [with_near_vector (PDict [("vector", of_floats emb)]); with_limit (PInt 0)] /\
    run (serve no_hits strict) (query_body self q) w = (Ok (PList [], PList []), w) /\
    run (serve no_hits strict) (query self q) w =
      (Err (TypeError "missing required argument: others"), w).
Proof.
  intros self emb strict w q.
  assert (B : run (serve no_hits strict) (query_body self q) w
              = (Ok (PList [], PList []), w)).
  { unfold query_body. rewrite run_bind, run_call. simpl.
    rewrite set_remote_same, run_lift.
    change (PDict [("data", PDict [("Get", PDict [(_collection_name self, PList [])])])])
      with (get_response (_collection_name self) []).
    rewrite query_lists_get_response. reflexivity. }
  split; [reflexivity | split; [exact B |]].
  unfold query. rewrite run_bind, B, run_lift. reflexivity.
Qed.

(** ** Construction *)

(** The first construction in a process: the flag is unset, the client
    is created and probed, the flag is set and [_client] is bound. *)
Lemma first_construction :
  forall (S : Type) (h : Handler S) (name : string)
         (kwargs : list (string * PyVal)) (environ : list (string * string))
         (w : World S) (v client probe : PyVal) (s1 s2 s3 : S),
    weaviate_init_done w = false ->
    truthy (setting kwargs environ "WEAVIATE_API_KEY") = true ->
    truthy (setting kwargs environ "WEAVIATE_API_URL") = true ->
    h try_to_import_weaviate_client (remote w) = (Ok v, s1) ->
    h (weaviate_Client (setting kwargs environ "WEAVIATE_API_URL")
                       (AuthApiKey (setting kwargs environ "WEAVIATE_API_KEY"))) s1
      = (Ok client, s2) ->
    h (on_client client schema_get) s2 = (Ok probe, s3) ->
    run h (__init__ name kwargs environ) w =
      (Ok {| _collection_name := name;
             _api_key := setting kwargs environ "WEAVIATE_API_KEY";
             _api_url := setting kwargs environ "WEAVIATE_API_URL";
             _client := client |},
       {| weaviate_init_done := true; remote := s3 |}).
Proof.
  intros S h name kwargs environ w v client probe s1 s2 s3 Hflag Hkey Hurl H1 H2 H3.
  unfold __init__. rewrite run_bind, run_call, H1. simpl.
  rewrite Hkey, Hurl. simpl. rewrite Hflag. simpl.
  rewrite H2. simpl. rewrite H3. reflexivity.
Qed.

(** C8. Once [_weaviate_init_done] is set, a construction with the key
    and the URL available does not complete: the branch that binds the
    local [client] is skipped and reading it raises [UnboundLocalError]. *)
Theorem construction_after_first_raises :
  forall (S : Type) (h : Handler S) (name : string)
         (kwargs : list (string * PyVal)) (environ : list (string * string))
         (w : World S) (v : PyVal) (s : S),
    weaviate_init_done w = true ->
    truthy (setting kwargs environ "WEAVIATE_API_KEY") = true ->
    truthy (setting kwargs environ "WEAVIATE_API_URL") = true ->
    h try_to_import_weaviate_client (remote w) = (Ok v, s) ->
    run h (__init__ name kwargs environ) w =
      (Err (UnboundLocalError "client"), set_remote w s).
Proof.
  intros S h name kwargs environ w v s Hflag Hkey Hurl H1.
  unfold __init__. rewrite run_bind, run_call, H1. simpl.
  rewrite Hkey, Hurl. simpl. rewrite Hflag. reflexivity.
Qed.

(** The hypotheses of [construction_after_first_raises] hold in a
    process whose flag is set, with both settings passed as keywords. *)
Lemma construction_after_first_raises_witness :
  weaviate_init_done docs_world = true /\
  run (serve no_hits false) (__init__ "Docs" credentials []) docs_world =
    (Err (UnboundLocalError "client"), docs_world).
Proof.
  split; [reflexivity |].
  apply (construction_after_first_raises Remote (serve no_hits false) "Docs"
           credentials [] docs_world PNone docs_remote); reflexivity.
Defined.

(** Two constructions in a fresh process: the first returns the store,
    the second raises. *)
Example two_constructions :
  let h := serve no_hits false in
  let first := run h (__init__ "Docs" credentials []) fresh_world in
  fst first =
    Ok {| _collection_name := "Docs";
          _api_key := PStr "secret";
          _api_url := PStr "https://example.weaviate.network";
          _client := PObj "Client"
                       [("url", PStr "https://example.weaviate.network");
                        ("auth_client_secret", AuthApiKey (PStr "secret"))] |} /\
  weaviate_init_done (snd first) = true /\
  fst (run h (__init__ "Docs" credentials []) (snd first)) =
    Err (UnboundLocalError "client").
Proof. repeat split. Qed.

(** ** [delete] *)

Section Delete.

Context {S : Type} (h : Handler S) (self : WeaviateVectorStore).

(** [delete()] is one call of the client's [schema.delete_class] on the
    collection's name; it returns [None] when the client returns and
    lets the client's exception through. *)
Lemma run_delete (w : World S) :
  run h (delete self []) w =
  (match fst (h (on_client (_client self)
                   (schema_delete_class (PStr (_collection_name self)))) (remote w)) with
   | Ok _ => Ok PNone
   | Err e => Err e
   end,
   set_remote w (snd (h (on_client (_client self)
                           (schema_delete_class (PStr (_collection_name self))))
                        (remote w)))).
Proof.
  unfold delete. simpl.
  destruct (h _ (remote w)) as [[v | e] s]; reflexivity.
Qed.

(** [delete] has no parameter for an id: a call with an argument is
    refused when the arguments are bound, before the client is reached. *)
Lemma delete_takes_no_argument (a : PyVal) (args : list PyVal) (w : World S) :
  run h (delete self (a :: args)) w =
  (Err (TypeError "too many positional arguments"), w) /\
  calls h (delete self (a :: args)) w = [].
Proof. split; reflexivity. Qed.

End Delete.

Lemma query_lists_shape (self : WeaviateVectorStore) (response a b : PyVal) :
  query_lists self response = Ok (a, b) ->
  exists sl il, a = PList sl /\ b = PList il.
Proof.
  unfold query_lists. intros H.
  destruct (results_or_empty self response) as [results | e]; simpl in H; [| discriminate].
  destruct (rbind (py_iter results) (mapM distance_of)) as [sl | e]; simpl in H;
    [| discriminate].
  destruct (rbind (py_iter results) (mapM id_of)) as [il | e]; simpl in H;
    [| discriminate].
  inversion H. eauto.
Qed.

Lemma mapM_id_of_flat (l : list PyVal) : mapM id_of (map flat_item l) = Ok l.
Proof.
  induction l as [| i l IH]; [reflexivity |]. simpl. rewrite IH. reflexivity.
Qed.

Lemma mapM_distance_of_flat (l : list PyVal) :
  mapM distance_of (map flat_item l) = Ok (map (fun _ => PFloat 0) l).
Proof.
  induction l as [| i l IH]; [reflexivity |]. simpl. rewrite IH. reflexivity.
Qed.

Lemma flat_scan_sound : engine_sound flat_scan.
Proof.
  intros self q s response sims idl Hc Ha Hq i Hi.
  unfold flat_scan in Ha. rewrite Hc in Ha. unfold stored_ids.
  destruct (collections s !! _collection_name self) as [c |].
  - inversion Ha; subst response; clear Ha.
    change (PDict [("data", PDict [("Get", PDict [(_collection_name self, ?x)])])])
      with (get_response (_collection_name self)
              (map flat_item (omap id_property (members c)))) in Hq.
    rewrite query_lists_get_response, mapM_distance_of_flat, mapM_id_of_flat in Hq.
    simpl in Hq. inversion Hq; subst. exact Hi.
  - inversion Ha; subst response; clear Ha.
    unfold query_lists, results_or_empty in Hq. simpl in Hq.
    inversion Hq; subst. destruct Hi.
Qed.

(** The state the reference remote is in after [delete()] returned:
    the collection is not in the schema. *)
Lemma delete_commits (answer : GetBuilder -> Remote -> result PyVal) (strict : bool)
      (self : WeaviateVectorStore) (w w1 : World Remote) :
  run (serve answer strict) (delete self []) w = (Ok PNone, w1) ->
  collections (remote w1) !! _collection_name self = None.
Proof.
  rewrite run_delete. simpl.
  destruct (collections (remote w) !! _collection_name self) as [c |] eqn:E.
  - simpl. intros H. inversion H; subst w1. simpl. apply lookup_delete_eq.
  - destruct strict; simpl; intros H; [discriminate |].
    inversion H; subst w1. simpl. exact E.
Qed.

(** C3, as stated, at an id: [delete(7)] on a collection that holds
    the object with id 7 raises [TypeError] and changes nothing, and a
    query issued afterwards still reads id 7 from the client's answer. *)
Lemma delete_of_an_id_is_refused :
  run (serve flat_scan false) (delete (store "Vecs") [PInt 7]) vecs_world =
    (Err (TypeError "too many positional arguments"), vecs_world) /\
  run (serve flat_scan false)
      (query_body (store "Vecs") {| embedding := [1%float; 0%float]; top_k := 1 |})
      vecs_world =
    (Ok (PList [PFloat 0], PList [PInt 7]), vecs_world).
Proof. split; reflexivity. Qed.

(** C3, amended. [delete] takes no id and drops the whole collection:
    once [delete()] has returned, the collection is gone from the
    remote, and against a sound engine every later query reads an empty
    list of ids (and leaves the remote as it is, so this holds for any
    number of later queries). A call with an argument is refused and
    changes nothing. *)
Theorem delete_drops_the_collection :
  forall (answer : GetBuilder -> Remote -> result PyVal) (strict : bool)
         (self : WeaviateVectorStore) (w w1 : World Remote),
    engine_sound answer ->
    run (serve answer strict) (delete self []) w = (Ok PNone, w1) ->
    collections (remote w1) !! _collection_name self = None /\
    (forall (q : VectorIndexQuery) (sims idl : PyVal) (w2 : World Remote),
        run (serve answer strict) (query_body self q) w1 = (Ok (sims, idl), w2) ->
        idl = PList [] /\ w2 = w1) /\
    (forall (a : PyVal) (args : list PyVal),
        run (serve answer strict) (delete self (a :: args)) w =
          (Err (TypeError "too many positional arguments"), w)).
Proof.
  intros answer strict self w w1 Hsound Hdel.
  pose proof (delete_commits answer strict self w w1 Hdel) as Hgone.
  split; [exact Hgone | split].
  - intros q sims idl w2 Hq.
    unfold query_body in Hq. rewrite run_bind, run_call in Hq. simpl in Hq.
    rewrite set_remote_same in Hq.
    destruct (answer (query_request self q) (remote w1)) as [response | e] eqn:Ha;
      [| discriminate].
    rewrite run_lift in Hq. inversion Hq as [[Hl Hw]]. split; [| reflexivity].
    destruct (query_lists_shape self response sims idl Hl) as (sl & il & -> & ->).
    destruct il as [| i il]; [reflexivity |].
    exfalso.
    pose proof (Hsound self (query_request self q) (remote w1) response
                       (PList sl) (i :: il) eq_refl Ha Hl i (or_introl eq_refl)) as Hin.
    unfold stored_ids in Hin. rewrite Hgone in Hin. destruct Hin.
  - intros a args. apply delete_takes_no_argument.
Qed.

(** [delete_drops_the_collection] on the collection ["Vecs"]: the
    engine that scans the collection is sound, [delete()] empties the
    schema, and a query issued afterwards reads no id. *)
Lemma delete_drops_the_collection_witness :
  engine_sound flat_scan /\
  run (serve flat_scan false) (delete (store "Vecs") []) vecs_world =
    (Ok PNone, set_remote vecs_world {| collections := ∅; next_uuid := 1 |}) /\
  run (serve flat_scan false)
      (query_body (store "Vecs") {| embedding := [1%float; 0%float]; top_k := 1 |})
      (set_remote vecs_world {| collections := ∅; next_uuid := 1 |}) =
    (Ok (PList [], PList []), set_remote vecs_world {| collections := ∅; next_uuid := 1 |}) /\
  collections {| collections := ∅; next_uuid := 1 |} !! "Vecs" = None.
Proof.
  split; [exact flat_scan_sound |].
  split; [reflexivity |].
  split; [reflexivity |].
  exact (proj1 (delete_drops_the_collection flat_scan false (store "Vecs") vecs_world
                  (set_remote vecs_world {| collections := ∅; next_uuid := 1 |})
                  flat_scan_sound eq_refl)).
Defined.

(** C5, as stated, at an id: calling [delete(7)] twice raises
    [TypeError] both times; the second call neither reports the id as
    missing nor returns [False]. *)
Lemma delete_of_an_id_twice :
  let h := serve flat_scan false in
  let first := run h (delete (store "Vecs") [PInt 7]) vecs_world in
  first = (Err (TypeError "too many positional arguments"), vecs_world) /\
  run h (delete (store "Vecs") [PInt 7]) (snd first) =
    (Err (TypeError "too many positional arguments"), vecs_world).
Proof. split; reflexivity. Qed.

(** C5, amended. [delete] takes no id. A second [delete()] right after
    a first one finds the collection absent and leaves the remote as it
    is; its outcome is the client's answer to deleting an absent class:
    the client's exception when the remote refuses that, [None] when it
    accepts it. The adapter itself never answers [False]. *)
Theorem delete_twice :
  forall (answer : GetBuilder -> Remote -> result PyVal) (strict : bool)
         (self : WeaviateVectorStore) (w : World Remote),
    let h := serve answer strict in
    let w1 := snd (run h (delete self []) w) in
    run h (delete self []) w1 =
      (if strict then Err (ClientError "no such class") else Ok PNone, w1) /\
    (forall (a : PyVal) (args : list PyVal),
        run h (delete self (a :: args)) w1 =
          (Err (TypeError "too many positional arguments"), w1)).
Proof.
  intros answer strict self w h w1.
  split; [| intros a args; apply delete_takes_no_argument].
  assert (Hgone : collections (remote w1) !! _collection_name self = None).
  { subst w1 h. rewrite run_delete. simpl.
    destruct (collections (remote w) !! _collection_name self) as [c |] eqn:E.
    - simpl. apply lookup_delete_eq.
    - destruct strict; simpl; exact E. }
  subst h. rewrite run_delete. simpl. rewrite Hgone.
  destruct strict; simpl; rewrite set_remote_same; reflexivity.
Qed.

(** ** [persist] *)

(** C7, as stated: a store answers neither [save] nor [load] (looking
    either up raises [AttributeError]), and [persist], the one method
    about persistence, refuses a path. *)
Lemma save_and_load_are_missing :
  method_owner "save" = Err (AttributeError "save") /\
  method_owner "load" = Err (AttributeError "load") /\
  method_owner "persist" = Ok "VectorStore" /\
  run (serve flat_scan false) (persist [PStr "/tmp/vecs.index"]) vecs_world =
    (Err (TypeError "too many positional arguments"), vecs_world).
Proof. repeat split. Qed.

(** C7, amended. [persist()], inherited from [VectorStore], takes no
    path, calls nothing, returns [None] and leaves the process and the
    remote as they are; whatever runs after it, a query in particular,
    runs as it would have without it. *)
Theorem persist_changes_nothing :
  forall (S : Type) (h : Handler S) (w : World S),
    run h (persist []) w = (Ok PNone, w) /\
    calls h (persist []) w = [] /\
    (forall (A : Type) (p : Prog A),
        run h (let* _ := persist [] in p) w = run h p w) /\
    (forall (self : WeaviateVectorStore) (q : VectorIndexQuery),
        run h (let* _ := persist [] in query_body self q) w =
        run h (query_body self q) w).
Proof.
  intros S h w. repeat split; intros; reflexivity.
Qed.

(** ** [create] *)

Section Calls.

Context {S : Type} (h : Handler S).

Lemma calls_bind {A B} (p : Prog A) (f : A -> Prog B) (w : World S) :
  calls h (bind p f) w =
  (calls h p w ++
   match run h p w with
   | (Ok a, w') => calls h (f a) w'
   | (Err _, _) => []
   end)%list.
Proof.
  revert w. induction p as [a | e | r k IH | k IH | b k IH]; intros w; simpl.
  - reflexivity.
  - reflexivity.
  - destruct (h r (remote w)) as [x s]. simpl. rewrite IH. reflexivity.
  - apply IH.
  - apply IH.
Qed.

Lemma calls_call (r : Request) (w : World S) : calls h (call r) w = [r].
Proof.
  unfold call. simpl. destruct (h r (remote w)) as [[v | e] s]; reflexivity.
Qed.

End Calls.

Lemma collection_obj_class (self : WeaviateVectorStore)
      (vectorizer properties module_config : PyVal) :
  py_getitem (collection_obj self vectorizer properties module_config) "class"
  = Ok (PStr (_collection_name self)).
Proof. reflexivity. Qed.

(** C9. Whatever the remote holds, [create] leaves it with a fresh
    collection under the store's name: the class object just built and
    no data object. When a class of that name exists the client is
    asked to delete it before it is asked to create the new one. A
    second [create] with the same arguments ends in the state the first
    one ended in, so two calls in a row do what one call does. *)
Theorem create_is_fresh_and_idempotent :
  forall (answer : GetBuilder -> Remote -> result PyVal) (strict : bool)
         (self : WeaviateVectorStore)
         (vectorizer properties module_config : PyVal) (w : World Remote),
    let h := serve answer strict in
    let name := PStr (_collection_name self) in
    let obj := collection_obj self vectorizer properties module_config in
    let create_ := create self vectorizer properties module_config in
    let w' :=
      set_remote w
        (with_collections (remote w)
           (<[_collection_name self := fresh_collection obj]>
              (collections (remote w)))) in
    run h create_ w = (Ok PNone, w') /\
    collections (remote w') !! _collection_name self
      = Some {| schema_class := obj; members := [] |} /\
    calls h create_ w =
      on_client (_client self) (schema_exists name)
      :: match collections (remote w) !! _collection_name self with
         | Some _ => [on_client (_client self) (schema_delete_class name);
                      on_client (_client self) (schema_create_class obj)]
         | None => [on_client (_client self) (schema_create_class obj)]
         end /\
    run h create_ w' = (Ok PNone, w') /\
    run h (let* _ := create_ in create_) w = run h create_ w.
Proof.
  intros answer strict self vectorizer properties module_config w h name obj create_ w'.
  assert (Hrun : forall v : World Remote,
             run h create_ v =
             (Ok PNone,
              set_remote v
                (with_collections (remote v)
                   (<[_collection_name self := fresh_collection obj]>
                      (collections (remote v)))))).
  { intros v. subst create_ h. unfold create.
    rewrite run_bind, run_call. simpl.
    destruct (collections (remote v) !! _collection_name self) as [c |] eqn:E; simpl.
    - rewrite E. simpl. rewrite lookup_delete_eq. simpl.
      unfold with_collections, set_remote. simpl.
      rewrite insert_delete_eq. reflexivity.
    - rewrite E. reflexivity. }
  assert (Hidem : run h create_ w' = (Ok PNone, w')).
  { rewrite Hrun. subst w'. unfold set_remote, with_collections. simpl.
    rewrite insert_insert_eq. reflexivity. }
  split; [apply Hrun | split; [| split; [| split]]].
  - subst w'. simpl. apply lookup_insert_eq.
  - subst create_ h. unfold create.
    rewrite calls_bind, calls_call, run_call. simpl.
    destruct (collections (remote w) !! _collection_name self) as [c |] eqn:E; simpl.
    + rewrite E. simpl. rewrite lookup_delete_eq. reflexivity.
    + rewrite E. reflexivity.
  - exact Hidem.
  - rewrite run_bind, Hrun. fold w'. rewrite Hidem. reflexivity.
Qed.

(** ** [delete_object_properties] *)

Lemma str_in_In (k : string) (l : list string) : str_in k l = true <-> In k l.
Proof.
  unfold str_in. rewrite existsb_exists. split.
  - intros (x & Hx & E). apply String.eqb_eq in E. subst x. exact Hx.
  - intros H. exists k. split; [exact H | apply String.eqb_refl].
Qed.

(** The comprehension keeps a key exactly when it is not listed, with
    the value it had. *)
Lemma lookup_updated_properties (d : list (string * PyVal)) (keys : list string)
      (k : string) :
  lookup_key k (updated_properties d keys) =
  if str_in k keys then None else lookup_key k d.
Proof.
  unfold updated_properties.
  induction d as [| [k' v] d IH]; simpl.
  - destruct (str_in k keys); reflexivity.
  - destruct (str_in k' keys) eqn:Ek'; simpl.
    + destruct (String.eqb k k') eqn:E.
      * apply String.eqb_eq in E. subst k'. rewrite Ek'. rewrite IH, Ek'. reflexivity.
      * exact IH.
    + destruct (String.eqb k k') eqn:E.
      * apply String.eqb_eq in E. subst k'. rewrite Ek'. reflexivity.
      * exact IH.
Qed.

(** What [delete_object_properties] sends. When the client answers
    [get_by_id(uuid)] with an object whose properties are [props] and
    accepts the replacement, the method makes these two calls and no
    other, succeeds, and the replacement it sends for the store's
    collection has no listed key and has every other key of [props]
    with its value unchanged. The object is fetched by its uuid alone:
    nothing here says that [props] belong to the store's collection. *)
Theorem delete_object_properties_frame :
  forall (S : Type) (h : Handler S) (self : WeaviateVectorStore)
         (payload : ObjectPropertyDeletionPayload) (w : World S)
         (obj props : list (string * PyVal)) (v : PyVal) (s1 s2 : S),
    let kept := updated_properties props (properties_to_delete payload) in
    h (on_client (_client self) (data_object_get_by_id (PStr (uuid payload))))
      (remote w) = (Ok (PDict obj), s1) ->
    lookup_key "properties" obj = Some (PDict props) ->
    h (on_client (_client self)
         (data_object_replace (PDict kept) (PStr (_collection_name self))
                              (PStr (uuid payload)))) s1 = (Ok v, s2) ->
    run h (delete_object_properties self payload) w = (Ok PNone, set_remote w s2) /\
    calls h (delete_object_properties self payload) w =
      [on_client (_client self) (data_object_get_by_id (PStr (uuid payload)));
       on_client (_client self)
         (data_object_replace (PDict kept) (PStr (_collection_name self))
                              (PStr (uuid payload)))] /\
    (forall k, In k (properties_to_delete payload) -> lookup_key k kept = None) /\
    (forall k, ~ In k (properties_to_delete payload) ->
               lookup_key k kept = lookup_key k props).
Proof.
  intros S h self payload w obj props v s1 s2 kept Hget Hprops Hrep.
  split; [| split; [| split]].
  - unfold delete_object_properties.
    rewrite run_bind, run_call, Hget. simpl. rewrite Hprops. simpl.
    fold kept. rewrite Hrep. reflexivity.
  - unfold delete_object_properties.
    rewrite calls_bind, calls_call, run_call, Hget. simpl. rewrite Hprops. simpl.
    fold kept. rewrite Hrep. reflexivity.
  - intros k Hk. subst kept. rewrite lookup_updated_properties.
    apply str_in_In in Hk. rewrite Hk. reflexivity.
  - intros k Hk. subst kept. rewrite lookup_updated_properties.
    destruct (str_in k (properties_to_delete payload)) eqn:E; [| reflexivity].
    apply str_in_In in E. contradiction.
Qed.

(** [delete_object_properties_frame] on the object ["0"] of ["Docs"]:
    ["draft"] goes, ["title"] and ["year"] stay as they were, and a key
    that the object does not have is ignored. *)
Lemma delete_object_properties_frame_witness :
  let h := serve flat_scan false in
  let payload := {| uuid := "0"; properties_to_delete := ["draft"; "missing"] |} in
  let after :=
    {| collections :=
         {[ "Docs" :=
              {| schema_class := PDict [("class", PStr "Docs")];
                 members := [("0", PDict [("title", PStr "a"); ("year", PInt 2023)])] |} ]};
       next_uuid := 1 |} in
  run h (delete_object_properties (store "Docs") payload) docs_world =
    (Ok PNone, set_remote docs_world after) /\
  fst (h (on_client (_client (store "Docs")) (data_object_get_by_id (PStr "0"))) after) =
    Ok (PDict [("class", PStr "Docs"); ("id", PStr "0");
               ("properties", PDict [("title", PStr "a"); ("year", PInt 2023)])]).
Proof.
  split; [| reflexivity].
  exact (proj1 (delete_object_properties_frame Remote (serve flat_scan false)
                  (store "Docs")
                  {| uuid := "0"; properties_to_delete := ["draft"; "missing"] |}
                  docs_world
                  [("class", PStr "Docs"); ("id", PStr "0");
                   ("properties",
                    PDict [("title", PStr "a"); ("year", PInt 2023);
                           ("draft", PBool true)])]
                  [("title", PStr "a"); ("year", PInt 2023); ("draft", PBool true)]
                  PNone docs_remote _ eq_refl eq_refl eq_refl)).
Defined.


(** ** The searches *)

Lemma results_strict_carries (self : WeaviateVectorStore) (response results : PyVal) :
  carries (_collection_name self) response results ->
  results_strict self response = Ok results.
Proof.
  intros (d & dd & g & -> & Hd & Hg & Hn).
  unfold results_strict. simpl. rewrite Hd. simpl. rewrite Hg. simpl. rewrite Hn.
  reflexivity.
Qed.

Lemma results_or_empty_carries (self : WeaviateVectorStore) (response results : PyVal) :
  carries (_collection_name self) response results ->
  results_or_empty self response = Ok results.
Proof.
  intros (d & dd & g & -> & Hd & Hg & Hn).
  unfold results_or_empty. simpl. rewrite Hd. simpl. rewrite Hg. simpl. rewrite Hn.
  reflexivity.
Qed.

Lemma in_others_ok (results : PyVal) :
  in_others results =
  Ok {| similarities := PList []; ids := PList []; others := results |}.
Proof. reflexivity. Qed.

(** C10. On a GraphQL answer that reports an error and carries no
    data, [keyword_search], [hybrid_search] and [generative_search]
    raise [KeyError] and return nothing: they read the answer with
    [response.get('data', {})] and then index [data['Get']].
    [label_based_search], which reads it with [.get] and defaults all
    the way (as [query] does), returns a result with empty
    [similarities], [ids] and [others]. *)
Lemma searches_on_an_error_response :
  let h := serve (scripted error_response) false in
  let sq := {| sq_query := "a"; sq_properties := Some ["title"]; sq_limit := 10;
               sq_autocut := None; sq_additional := None |} in
  let gq := {| g_query := "a"; prompt := "summarise"; g_properties := Some ["title"];
               g_limit := 10; grouped_task := false; grouped_properties := None |} in
  let lq := {| l_properties := ["title"]; filters := PDict []; l_limit := 10 |} in
  run h (keyword_search (store "Docs") sq) docs_world = (Err (KeyError "Get"), docs_world) /\
  run h (hybrid_search (store "Docs") sq) docs_world = (Err (KeyError "Get"), docs_world) /\
  run h (generative_search (store "Docs") gq) docs_world
    = (Err (KeyError "Get"), docs_world) /\
  run h (label_based_search (store "Docs") lq) docs_world =
    (Ok {| similarities := PList []; ids := PList []; others := PList [] |}, docs_world).
Proof. repeat split. Qed.

(** Whenever the client's answer carries a result list for the
    collection under ["data"]["Get"], each of the four searches returns
    a result whose [similarities] and [ids] are empty lists and whose
    [others] is that result list, untouched. *)
Theorem searches_fill_only_others :
  forall (S : Type) (h : Handler S) (self : WeaviateVectorStore) (c : Search)
         (w : World S) (response results : PyVal) (s : S),
    h (on_client (_client self) (query_do (search_request self c))) (remote w)
      = (Ok response, s) ->
    carries (_collection_name self) response results ->
    run h (search self c) w =
      (Ok {| similarities := PList []; ids := PList []; others := results |},
       set_remote w s).
Proof.
  intros S h self c w response results s Hdo Hc.
  destruct c as [p | p | p | p]; cbn [search search_request] in Hdo |- *.
  - unfold keyword_search. rewrite run_bind, run_call, Hdo. simpl.
    rewrite (results_strict_carries _ _ _ Hc). reflexivity.
  - unfold hybrid_search. rewrite run_bind, run_call, Hdo. simpl.
    rewrite (results_strict_carries _ _ _ Hc). reflexivity.
  - unfold generative_search. rewrite run_bind, run_call, Hdo. simpl.
    rewrite (results_strict_carries _ _ _ Hc). reflexivity.
  - unfold label_based_search. rewrite run_bind, run_call, Hdo. simpl.
    rewrite (results_or_empty_carries _ _ _ Hc). reflexivity.
Qed.

Lemma carries_get_response (name : string) (items : list PyVal) :
  carries name (get_response name items) (PList items).
Proof.
  exists [("data", PDict [("Get", PDict [(name, PList items)])])],
         [("Get", PDict [(name, PList items)])],
         [(name, PList items)].
  repeat split. apply lookup_key_here.
Qed.

(** [searches_fill_only_others] on a keyword search whose answer
    carries one object. *)
Lemma searches_fill_only_others_witness :
  let found := [PDict [("title", PStr "a")]] in
  let h := serve (scripted (get_response "Docs" found)) false in
  run h (keyword_search (store "Docs")
           {| sq_query := "a"; sq_properties := Some ["title"]; sq_limit := 10;
              sq_autocut := Some 1%Z; sq_additional := None |}) docs_world =
    (Ok {| similarities := PList []; ids := PList []; others := PList found |},
     docs_world).
Proof.
  exact (searches_fill_only_others Remote
           (serve (scripted (get_response "Docs" [PDict [("title", PStr "a")]])) false)
           (store "Docs")
           (Keyword {| sq_query := "a"; sq_properties := Some ["title"]; sq_limit := 10;
                       sq_autocut := Some 1%Z; sq_additional := None |})
           docs_world (get_response "Docs" [PDict [("title", PStr "a")]])
           (PList [PDict [("title", PStr "a")]]) docs_remote eq_refl
           (carries_get_response "Docs" [PDict [("title", PStr "a")]])).
Defined.

(** What [label_based_search] adds: an answer that is a dictionary
    without ["data"] gives an empty [others]. *)
Lemma label_based_search_without_data :
  forall (S : Type) (h : Handler S) (self : WeaviateVectorStore)
         (p : LabelBasedSearchPayload) (w : World S)
         (d : list (string * PyVal)) (s : S),
    h (on_client (_client self) (query_do (label_request self p))) (remote w)
      = (Ok (PDict d), s) ->
    lookup_key "data" d = None ->
    run h (label_based_search self p) w =
      (Ok {| similarities := PList []; ids := PList []; others := PList [] |},
       set_remote w s).
Proof.
  intros S h self p w d s Hdo Hd.
  unfold label_based_search. rewrite run_bind, run_call, Hdo. simpl.
  unfold results_or_empty. simpl. rewrite Hd. reflexivity.
Qed.

(** ** Embeddings and distances *)

Lemma run_with_exit {S} (h : Handler S) (p : Prog unit) (r : Request) (w : World S) :
  run h (with_exit p r) w =
  (match fst (h r (remote (snd (run h p w)))), fst (run h p w) with
   | Ok _, Ok _ => Ok tt
   | Ok v, Err e => if truthy v then Ok tt else Err e
   | Err e', _ => Err e'
   end,
   set_remote (snd (run h p w)) (snd (h r (remote (snd (run h p w)))))).
Proof.
  revert w. induction p as [a | e | r' k IH | k IH | b k IH]; intros w; simpl.
  - destruct (h r (remote w)) as [[v | e] s]; reflexivity.
  - destruct (h r (remote w)) as [[v | e'] s]; simpl; [| reflexivity].
    destruct (truthy v); reflexivity.
  - destruct (h r' (remote w)) as [x s]. apply IH.
  - apply IH.
  - apply IH.
Qed.







(** ** Further properties *)

Lemma mapM_length {A B} (f : A -> result B) (l : list A) (l' : list B) :
  mapM f l = Ok l' -> length l' = length l.
Proof.
  revert l'. induction l as [| a l IH]; intros l' H; simpl in H.
  - inversion H. reflexivity.
  - destruct (f a) as [b | e]; simpl in H; [| discriminate].
    destruct (mapM f l) as [bs | e]; simpl in H; [| discriminate].
    inversion H. simpl. rewrite (IH bs eq_refl). reflexivity.
Qed.

(** Whenever [query] gets as far as building its two lists, they have
    the same length: one entry each per item of the client's answer. *)
Theorem query_lists_equal_length :
  forall (self : WeaviateVectorStore) (response : PyVal) (sims idl : list PyVal),
    query_lists self response = Ok (PList sims, PList idl) ->
    length sims = length idl.
Proof.
  intros self response sims idl H. unfold query_lists in H.
  destruct (results_or_empty self response) as [results | e]; simpl in H; [| discriminate].
  destruct (py_iter results) as [items | e]; simpl in H; [| discriminate].
  destruct (mapM distance_of items) as [sl | e] eqn:Es; simpl in H; [| discriminate].
  destruct (mapM id_of items) as [il | e] eqn:Ei; simpl in H; [| discriminate].
  inversion H; subst.
  rewrite (mapM_length _ _ _ Es), (mapM_length _ _ _ Ei). reflexivity.
Qed.

(** [query_lists_equal_length] on an answer with two hits. *)
Lemma query_lists_equal_length_witness :
  query_lists (store "Vecs")
    (get_response "Vecs" [hit (PInt 7) (PFloat 0.25); hit (PInt 3) (PFloat 0.5)]) =
    Ok (PList [PFloat 0.25; PFloat 0.5], PList [PInt 7; PInt 3]) /\
  length [PFloat 0.25; PFloat 0.5] = length [PInt 7; PInt 3].
Proof.
  split; [reflexivity |].
  exact (query_lists_equal_length (store "Vecs")
           (get_response "Vecs" [hit (PInt 7) (PFloat 0.25); hit (PInt 3) (PFloat 0.5)])
           [PFloat 0.25; PFloat 0.5] [PInt 7; PInt 3] eq_refl).
Defined.

(** [first_construction] in a fresh process, with both settings passed
    as keywords. *)
Lemma first_construction_witness :
  weaviate_init_done fresh_world = false /\
  run (serve no_hits false) (__init__ "Docs" credentials []) fresh_world =
    (Ok {| _collection_name := "Docs";
           _api_key := PStr "secret";
           _api_url := PStr "https://example.weaviate.network";
           _client := PObj "Client"
                        [("url", PStr "https://example.weaviate.network");
                         ("auth_client_secret", AuthApiKey (PStr "secret"))] |},
     {| weaviate_init_done := true; remote := empty_remote |}).
Proof.
  split; [reflexivity |].
  exact (first_construction Remote (serve no_hits false) "Docs" credentials []
           fresh_world PNone
           (PObj "Client"
              [("url", PStr "https://example.weaviate.network");
               ("auth_client_secret", AuthApiKey (PStr "secret"))])
           (PDict [("classes", PList [])])
           empty_remote empty_remote empty_remote
           eq_refl eq_refl eq_refl eq_refl eq_refl eq_refl).
Defined.

(** [label_based_search_without_data] on a GraphQL error answer. *)
Lemma label_based_search_without_data_witness :
  run (serve (scripted error_response) false)
      (label_based_search (store "Docs")
         {| l_properties := ["title"]; filters := PDict []; l_limit := 10 |})
      docs_world =
    (Ok {| similarities := PList []; ids := PList []; others := PList [] |}, docs_world).
Proof.
  exact (label_based_search_without_data Remote (serve (scripted error_response) false)
           (store "Docs")
           {| l_properties := ["title"]; filters := PDict []; l_limit := 10 |}
           docs_world
           [("errors", PList [PDict [("message", PStr "Cannot query field")]])]
           docs_remote eq_refl eq_refl).
Defined.

(** ** Construction: the ways it fails *)

(** Without a usable API key or URL (absent from the keywords and from
    the environment, or empty), construction stops at the assertion:
    nothing but the import has been asked of the surroundings, no
    client is created and the module global is as it was. *)
Theorem construction_without_credentials :
  forall (S : Type) (h : Handler S) (name : string)
         (kwargs : list (string * PyVal)) (environ : list (string * string))
         (w : World S) (v : PyVal) (s : S),
    h try_to_import_weaviate_client (remote w) = (Ok v, s) ->
    truthy (setting kwargs environ "WEAVIATE_API_KEY") = false \/
    truthy (setting kwargs environ "WEAVIATE_API_URL") = false ->
    (exists msg : string,
        run h (__init__ name kwargs environ) w =
          (Err (AssertionError msg), set_remote w s)) /\
    calls h (__init__ name kwargs environ) w = [try_to_import_weaviate_client].
Proof.
  intros S h name kwargs environ w v s Himp Hmiss.
  unfold __init__. rewrite run_bind, run_call, calls_bind, calls_call, run_call, Himp.
  cbn [fst snd app].
  destruct (truthy (setting kwargs environ "WEAVIATE_API_KEY")) eqn:Hkey; cbn [negb].
  - destruct Hmiss as [Hk | Hu]; [discriminate |]. rewrite Hu. cbn [negb].
    split; [eexists; reflexivity | reflexivity].
  - split; [eexists; reflexivity | reflexivity].
Qed.

(** [construction_without_credentials] with an empty key among the
    keywords and nothing in the environment. *)
Lemma construction_without_credentials_witness :
  truthy (setting [("WEAVIATE_API_KEY", PStr "")] [] "WEAVIATE_API_KEY") = false /\
  calls (serve no_hits false)
        (__init__ "Docs" [("WEAVIATE_API_KEY", PStr "")] []) fresh_world =
    [try_to_import_weaviate_client].
Proof.
  split; [reflexivity |].
  exact (proj2 (construction_without_credentials Remote (serve no_hits false) "Docs"
                  [("WEAVIATE_API_KEY", PStr "")] [] fresh_world PNone empty_remote
                  eq_refl (or_introl eq_refl))).
Defined.

(** When the probe [client.schema.get()] of a first construction
    raises, the exception propagates and [_weaviate_init_done] stays
    unset, so the next construction creates and probes a client again. *)
Theorem failed_probe_leaves_flag_unset :
  forall (S : Type) (h : Handler S) (name : string)
         (kwargs : list (string * PyVal)) (environ : list (string * string))
         (w : World S) (v client : PyVal) (e : PyError) (s1 s2 s3 : S),
    weaviate_init_done w = false ->
    truthy (setting kwargs environ "WEAVIATE_API_KEY") = true ->
    truthy (setting kwargs environ "WEAVIATE_API_URL") = true ->
    h try_to_import_weaviate_client (remote w) = (Ok v, s1) ->
    h (weaviate_Client (setting kwargs environ "WEAVIATE_API_URL")
                       (AuthApiKey (setting kwargs environ "WEAVIATE_API_KEY"))) s1
      = (Ok client, s2) ->
    h (on_client client schema_get) s2 = (Err e, s3) ->
    run h (__init__ name kwargs environ) w =
      (Err e, {| weaviate_init_done := false; remote := s3 |}).
Proof.
  intros S h name kwargs environ w v client e s1 s2 s3 Hflag Hkey Hurl H1 H2 H3.
  unfold __init__. rewrite run_bind, run_call, H1. simpl.
  rewrite Hkey, Hurl. simpl. rewrite Hflag. simpl.
  rewrite H2. simpl. rewrite H3. cbn [lift bind run].
  unfold set_remote. cbn [weaviate_init_done remote]. rewrite Hflag. reflexivity.
Qed.

(** [failed_probe_leaves_flag_unset] against a remote whose schema
    cannot be read: the construction fails, and a second attempt does
    not end in [UnboundLocalError] but fails in the same way. *)
Lemma failed_probe_leaves_flag_unset_witness :
  let h := failing is_schema_get (serve no_hits false) in
  run h (__init__ "Docs" credentials []) fresh_world =
    (Err (ClientError "refused"), fresh_world) /\
  run h (__init__ "Docs" credentials []) fresh_world =
    (Err (ClientError "refused"),
     {| weaviate_init_done := false; remote := empty_remote |}).
Proof.
  split; [reflexivity |].
  exact (failed_probe_leaves_flag_unset Remote
           (failing is_schema_get (serve no_hits false)) "Docs" credentials []
           fresh_world PNone
           (PObj "Client"
              [("url", PStr "https://example.weaviate.network");
               ("auth_client_secret", AuthApiKey (PStr "secret"))])
           (ClientError "refused") empty_remote empty_remote empty_remote
           eq_refl eq_refl eq_refl eq_refl eq_refl eq_refl).
Defined.

(** ** [add] *)

Lemma calls_with_exit {S} (h : Handler S) (p : Prog unit) (r : Request) (w : World S) :
  calls h (with_exit p r) w = (calls h p w ++ [r])%list.
Proof.
  revert w. induction p as [a | e | r' k IH | k IH | b k IH]; intros w; simpl.
  - destruct (h r (remote w)) as [[v | e] s]; reflexivity.
  - destruct (h r (remote w)) as [[v | e'] s]; simpl; [| reflexivity].
    destruct (truthy v); reflexivity.
  - destruct (h r' (remote w)) as [x s]. simpl. rewrite IH. reflexivity.
  - apply IH.
  - apply IH.
Qed.

(** The loop of [add] against a batch that accepts every record. *)
Lemma add_loop_accepted {S} (h : Handler S) (batch : PyVal) (name : string)
      (payload : list FeaturePayload) :
  (forall item s, exists v,
      fst (h (on_client batch (batch_add_data_object (data_object item) (PStr name))) s)
      = Ok v) ->
  forall w : World S,
    let body := fun item =>
      let* _ := call (on_client batch
                        (batch_add_data_object (data_object item) (PStr name))) in
      Ret tt in
    fst (run h (for_each payload body) w) = Ok tt /\
    calls h (for_each payload body) w =
      map (fun item => on_client batch
                         (batch_add_data_object (data_object item) (PStr name)))
          payload.
Proof.
  intros Hok. induction payload as [| item payload IH]; intros w body.
  - split; reflexivity.
  - cbn [for_each map]. rewrite run_bind, calls_bind.
    assert (Hb : run h (body item) w =
                 (Ok tt, set_remote w (snd (h (on_client batch
                    (batch_add_data_object (data_object item) (PStr name)))
                    (remote w))))).
    { unfold body. rewrite run_bind, run_call.
      destruct (Hok item (remote w)) as [v Hv].
      rewrite Hv. reflexivity. }
    rewrite Hb.
    assert (Hc : calls h (body item) w =
                 [on_client batch
                    (batch_add_data_object (data_object item) (PStr name))]).
    { unfold body. rewrite calls_bind, calls_call, run_call.
      destruct (fst (h _ (remote w))); reflexivity. }
    rewrite Hc.
    destruct (IH (set_remote w (snd (h (on_client batch
                    (batch_add_data_object (data_object item) (PStr name)))
                    (remote w))))) as [Hr Hcs].
    split; [exact Hr |]. simpl. f_equal. exact Hcs.
Qed.

(** When entering the client's batch gives a batch object, that object
    accepts every record, and leaving the batch raises nothing, [add]
    returns [None] after these requests and no others: the batch is
    entered, one [add_data_object] per item is sent to the batch object
    in the payload's order, each for the store's collection, and the
    batch is left. For an empty payload the batch is entered and left. *)
Theorem add_sends_every_item :
  forall (S : Type) (h : Handler S) (self : WeaviateVectorStore)
         (payload : list FeaturePayload) (w : World S)
         (cls : string) (attrs : list (string * PyVal)),
    fst (h (on_client (_client self) batch_enter) (remote w)) = Ok (PObj cls attrs) ->
    (forall item s, exists v,
        fst (h (on_client (PObj cls attrs)
                  (batch_add_data_object (data_object item)
                                         (PStr (_collection_name self)))) s) = Ok v) ->
    (forall s, exists v, fst (h (on_client (_client self) batch_exit) s) = Ok v) ->
    fst (run h (add self payload) w) = Ok PNone /\
    calls h (add self payload) w =
      (on_client (_client self) batch_enter
       :: map (fun item =>
                 on_client (PObj cls attrs)
                   (batch_add_data_object (data_object item)
                                          (PStr (_collection_name self))))
              payload
       ++ [on_client (_client self) batch_exit])%list.
Proof.
  intros S h self payload w cls attrs Hb Hadd Hexit.
  unfold add. rewrite run_bind, calls_bind, calls_call, run_call, Hb.
  cbn beta iota. rewrite run_bind, calls_bind, run_with_exit, calls_with_exit.
  destruct (add_loop_accepted h (PObj cls attrs) (_collection_name self) payload Hadd
              (set_remote w (snd (h (on_client (_client self) batch_enter)
                                    (remote w))))) as [Hr Hc].
  cbv zeta in Hr, Hc. rewrite Hc, Hr.
  match goal with
  | |- context [h (on_client (_client self) batch_exit) ?s] =>
      destruct (Hexit s) as [x Hx]; rewrite Hx
  end.
  cbn [fst snd run calls app]. rewrite app_nil_r. split; reflexivity.
Qed.

(** [add_sends_every_item] with two records, against a client whose
    batch is the client object. *)
Lemma add_sends_every_item_witness :
  let payload := [{| fp_id := 1; fp_embedding := [1%float] |};
                  {| fp_id := 2; fp_embedding := [0.5%float] |}] in
  let w := {| weaviate_init_done := true; remote := tt |} in
  fst (plain_client (on_client (_client (store "Vecs")) batch_enter) (remote w))
    = Ok (PObj "Client" []) /\
  fst (run plain_client (add (store "Vecs") payload) w) = Ok PNone /\
  calls plain_client (add (store "Vecs") payload) w =
    [on_client (PObj "Client" []) batch_enter;
     on_client (PObj "Client" [])
       (batch_add_data_object (PDict [("id", PInt 1); ("vector", PList [PFloat 1])])
                              (PStr "Vecs"));
     on_client (PObj "Client" [])
       (batch_add_data_object (PDict [("id", PInt 2); ("vector", PList [PFloat 0.5])])
                              (PStr "Vecs"));
     on_client (PObj "Client" []) batch_exit].
Proof.
  split; [reflexivity |].
  exact (add_sends_every_item unit plain_client (store "Vecs")
           [{| fp_id := 1; fp_embedding := [1%float] |};
            {| fp_id := 2; fp_embedding := [0.5%float] |}]
           {| weaviate_init_done := true; remote := tt |}
           "Client" [] eq_refl
           (fun item s => ex_intro _ PNone eq_refl)
           (fun s => ex_intro _ PNone eq_refl)).
Defined.

(** When the batch refuses the first record, [add] sends none of the
    others, still leaves the batch, and raises what the batch raised
    (the batch's [__exit__] returning nothing true). *)
Theorem add_closes_the_batch_on_error :
  forall (S : Type) (h : Handler S) (self : WeaviateVectorStore)
         (item : FeaturePayload) (rest : list FeaturePayload) (w : World S)
         (batch v : PyVal) (e : PyError) (s1 s2 s3 : S),
    h (on_client (_client self) batch_enter) (remote w) = (Ok batch, s1) ->
    h (on_client batch
         (batch_add_data_object (data_object item) (PStr (_collection_name self)))) s1
      = (Err e, s2) ->
    h (on_client (_client self) batch_exit) s2 = (Ok v, s3) ->
    truthy v = false ->
    run h (add self (item :: rest)) w = (Err e, set_remote w s3) /\
    calls h (add self (item :: rest)) w =
      [on_client (_client self) batch_enter;
       on_client batch
         (batch_add_data_object (data_object item) (PStr (_collection_name self)));
       on_client (_client self) batch_exit].
Proof.
  intros S h self item rest w batch v e s1 s2 s3 Henter Hadd Hexit Hv.
  unfold add. split; simpl; rewrite Henter; simpl; rewrite Hadd; simpl;
    rewrite Hexit; simpl; rewrite Hv; reflexivity.
Qed.

(** [add_closes_the_batch_on_error] against a batch that refuses every
    record. *)
Lemma add_closes_the_batch_on_error_witness :
  let h := failing is_add_data_object (serve flat_scan false) in
  let item := {| fp_id := 9; fp_embedding := [0.5%float] |} in
  run h (add (store "Vecs") [item; item]) vecs_world =
    (Err (ClientError "refused"), vecs_world) /\
  calls h (add (store "Vecs") [item; item]) vecs_world =
    [on_client (_client (store "Vecs")) batch_enter;
     on_client (_client (store "Vecs"))
       (batch_add_data_object (data_object item) (PStr "Vecs"));
     on_client (_client (store "Vecs")) batch_exit].
Proof.
  exact (add_closes_the_batch_on_error Remote
           (failing is_add_data_object (serve flat_scan false)) (store "Vecs")
           {| fp_id := 9; fp_embedding := [0.5%float] |}
           [{| fp_id := 9; fp_embedding := [0.5%float] |}]
           vecs_world (_client (store "Vecs")) PNone (ClientError "refused")
           vecs_remote vecs_remote vecs_remote eq_refl eq_refl eq_refl eq_refl).
Defined.

(** ** [delete_object_properties]: edges *)

Lemma str_in_app (k : string) (l1 l2 : list string) :
  str_in k (l1 ++ l2)%list = str_in k l1 || str_in k l2.
Proof. unfold str_in. apply existsb_app. Qed.

Lemma updated_properties_nil (d : list (string * PyVal)) :
  updated_properties d [] = d.
Proof.
  unfold updated_properties.
  induction d as [| [k v] d IH]; [reflexivity |].
  cbn [List.filter fst]. change (str_in k []) with false. cbn [negb].
  rewrite IH. reflexivity.
Qed.

(** Removing keys in two rounds keeps what removing them all at once
    keeps; removing the same keys again, or no key, changes nothing. *)
Theorem updated_properties_compose :
  forall (d : list (string * PyVal)) (k1 k2 : list string),
    updated_properties (updated_properties d k1) k2
      = updated_properties d (k1 ++ k2)%list /\
    updated_properties (updated_properties d k1) k1 = updated_properties d k1 /\
    updated_properties d [] = d.
Proof.
  intros d k1 k2. unfold updated_properties. repeat split.
  - induction d as [| [k v] d IH]; [reflexivity |]. simpl.
    rewrite str_in_app.
    destruct (str_in k k1) eqn:E1; simpl.
    + exact IH.
    + destruct (str_in k k2) eqn:E2; simpl; rewrite IH; reflexivity.
  - induction d as [| [k v] d IH]; [reflexivity |]. simpl.
    destruct (str_in k k1) eqn:E1; simpl.
    + exact IH.
    + rewrite E1. simpl. rewrite IH. reflexivity.
  - apply updated_properties_nil.
Qed.

(** With an empty list of keys [delete_object_properties] is no
    shortcut: the object is fetched and then replaced by its own
    properties, the same [replace] call that [replace_object] makes for
    them. *)
Theorem delete_no_property_replaces_anyway :
  forall (S : Type) (h : Handler S) (self : WeaviateVectorStore) (u : string)
         (w : World S) (obj props : list (string * PyVal)) (s1 : S),
    h (on_client (_client self) (data_object_get_by_id (PStr u))) (remote w)
      = (Ok (PDict obj), s1) ->
    lookup_key "properties" obj = Some (PDict props) ->
    run h (delete_object_properties self {| uuid := u; properties_to_delete := [] |}) w
      = run h (replace_object self {| rep_uuid := u; rep_properties := PDict props |})
            (set_remote w s1) /\
    calls h (delete_object_properties self {| uuid := u; properties_to_delete := [] |}) w
      = on_client (_client self) (data_object_get_by_id (PStr u))
        :: calls h (replace_object self {| rep_uuid := u; rep_properties := PDict props |})
                 (set_remote w s1).
Proof.
  intros S h self u w obj props s1 Hget Hprops.
  unfold delete_object_properties, replace_object. cbn [uuid properties_to_delete
    rep_uuid rep_properties].
  split.
  - rewrite run_bind, run_call, Hget. cbn [fst snd py_getitem]. rewrite Hprops.
    cbn [lift bind py_items]. 
    rewrite updated_properties_nil. reflexivity.
  - rewrite calls_bind, calls_call, run_call, Hget. cbn [fst snd py_getitem app].
    rewrite Hprops. cbn [lift bind py_items].
    rewrite updated_properties_nil. reflexivity.
Qed.

(** [delete_no_property_replaces_anyway] on the object ["0"] of
    ["Docs"]. *)
Lemma delete_no_property_replaces_anyway_witness :
  let h := serve flat_scan false in
  let props := [("title", PStr "a"); ("year", PInt 2023); ("draft", PBool true)] in
  run h (delete_object_properties (store "Docs")
           {| uuid := "0"; properties_to_delete := [] |}) docs_world =
  run h (replace_object (store "Docs")
           {| rep_uuid := "0"; rep_properties := PDict props |}) docs_world.
Proof.
  exact (proj1 (delete_no_property_replaces_anyway Remote (serve flat_scan false)
                  (store "Docs") "0" docs_world
                  [("class", PStr "Docs"); ("id", PStr "0");
                   ("properties",
                    PDict [("title", PStr "a"); ("year", PInt 2023);
                           ("draft", PBool true)])]
                  [("title", PStr "a"); ("year", PInt 2023); ("draft", PBool true)]
                  docs_remote eq_refl eq_refl)).
Defined.

(** When what the client returns for the uuid has no dictionary of
    properties, [delete_object_properties] raises and asks for no
    replacement; for an unknown uuid, where the client returns [None],
    the exception is the [TypeError] of indexing [None]. *)
Theorem delete_object_properties_without_object :
  forall (S : Type) (h : Handler S) (self : WeaviateVectorStore)
         (payload : ObjectPropertyDeletionPayload) (w : World S)
         (obj : PyVal) (s1 : S),
    h (on_client (_client self) (data_object_get_by_id (PStr (uuid payload))))
      (remote w) = (Ok obj, s1) ->
    (forall props, py_getitem obj "properties" <> Ok (PDict props)) ->
    (exists e : PyError,
        run h (delete_object_properties self payload) w = (Err e, set_remote w s1) /\
        (obj = PNone -> e = TypeError "not subscriptable")) /\
    calls h (delete_object_properties self payload) w =
      [on_client (_client self) (data_object_get_by_id (PStr (uuid payload)))].
Proof.
  intros S h self payload w obj s1 Hget Hno.
  unfold delete_object_properties.
  rewrite run_bind, calls_bind, calls_call, run_call, Hget. cbn [fst snd app].
  destruct (py_getitem obj "properties") as [object_data | e] eqn:E.
  - destruct object_data as [| b | n | f | s | l | d | c a];
      try (split; [eexists; split; [reflexivity |] | reflexivity];
           intros ->; discriminate E).
    exfalso. exact (Hno d eq_refl).
  - split; [| reflexivity]. exists e. split; [reflexivity |].
    intros ->. simpl in E. inversion E. reflexivity.
Qed.

(** [delete_object_properties_without_object] for a uuid the remote
    does not know. *)
Lemma delete_object_properties_without_object_witness :
  run (serve flat_scan false)
      (delete_object_properties (store "Docs")
         {| uuid := "42"; properties_to_delete := ["draft"] |}) docs_world =
    (Err (TypeError "not subscriptable"), docs_world) /\
  calls (serve flat_scan false)
        (delete_object_properties (store "Docs")
           {| uuid := "42"; properties_to_delete := ["draft"] |}) docs_world =
    [on_client (_client (store "Docs")) (data_object_get_by_id (PStr "42"))].
Proof.
  split; [reflexivity |].
  exact (proj2 (delete_object_properties_without_object Remote (serve flat_scan false)
                  (store "Docs") {| uuid := "42"; properties_to_delete := ["draft"] |}
                  docs_world PNone docs_remote eq_refl
                  (fun props H => ltac:(discriminate H)))).
Defined.

(** ** [query]: what it needs from an answer *)

Lemma mapM_ok_iff {A B} (f : A -> result B) (l : list A) :
  (exists l', mapM f l = Ok l') <-> Forall (fun a => exists b, f a = Ok b) l.
Proof.
  induction l as [| a l IH]; simpl.
  - split; [constructor | eauto].
  - split.
    + intros [l' H]. destruct (f a) as [b | e] eqn:E; simpl in H; [| discriminate].
      destruct (mapM f l) as [bs | e] eqn:E'; simpl in H; [| discriminate].
      constructor; [eauto | apply IH; eauto].
    + intros H. inversion H as [| ? ? [b Hb] Hl]; subst.
      apply IH in Hl. destruct Hl as [bs Hbs].
      rewrite Hb, Hbs. simpl. eauto.
Qed.

(** On an answer that carries a list of items for the collection,
    [query] builds its two lists exactly when every item has an
    ["_additional"]["distance"] and an ["id"]; one item without either
    makes the whole call raise. *)
Theorem query_lists_built_iff :
  forall (self : WeaviateVectorStore) (items : list PyVal),
    (exists lists,
        query_lists self (get_response (_collection_name self) items) = Ok lists)
    <->
    Forall (fun item => (exists d, distance_of item = Ok d) /\
                        (exists i, id_of item = Ok i)) items.
Proof.
  intros self items. rewrite query_lists_get_response. split.
  - intros [lists H].
    destruct (mapM distance_of items) as [sl | e] eqn:Es; simpl in H; [| discriminate].
    destruct (mapM id_of items) as [il | e] eqn:Ei; simpl in H; [| discriminate].
    assert (Hs : Forall (fun a => exists b, distance_of a = Ok b) items)
      by (apply mapM_ok_iff; eauto).
    assert (Hi : Forall (fun a => exists b, id_of a = Ok b) items)
      by (apply mapM_ok_iff; eauto).
    rewrite Forall_forall in *. intros x Hx. split; [apply Hs | apply Hi]; exact Hx.
  - intros H.
    assert (Hs : exists sl, mapM distance_of items = Ok sl).
    { apply mapM_ok_iff. rewrite Forall_forall in *. intros x Hx. apply (H x Hx). }
    assert (Hi : exists il, mapM id_of items = Ok il).
    { apply mapM_ok_iff. rewrite Forall_forall in *. intros x Hx. apply (H x Hx). }
    destruct Hs as [sl Hs], Hi as [il Hi]. rewrite Hs, Hi. simpl. eauto.
Qed.

(** An answer that is a dictionary without ["data"] (a GraphQL error,
    say) is read by [query] as an answer without hits: both lists are
    empty and nothing is raised for it. *)
Theorem query_lists_without_data :
  forall (self : WeaviateVectorStore) (d : list (string * PyVal)),
    lookup_key "data" d = None ->
    query_lists self (PDict d) = Ok (PList [], PList []).
Proof.
  intros self d H. unfold query_lists, results_or_empty. simpl. rewrite H. reflexivity.
Qed.

(** [query_lists_without_data] on a GraphQL error answer. *)
Lemma query_lists_without_data_witness :
  query_lists (store "Vecs") error_response = Ok (PList [], PList []).
Proof.
  exact (query_lists_without_data (store "Vecs")
           [("errors", PList [PDict [("message", PStr "Cannot query field")]])]
           eq_refl).
Defined.

(** ** The constructor of the result *)

(** Called with positional arguments only, [VectorIndexQueryResult]
    accepts exactly three, which become [similarities], [ids] and
    [others] in that order; any other number raises [TypeError]. Two
    positionals with [others] as keyword are accepted as well. *)
Theorem VectorIndexQueryResult_init_arity :
  forall args : list PyVal,
    VectorIndexQueryResult_init args [] =
    match args with
    | [a; b; c] => Ok {| similarities := a; ids := b; others := c |}
    | _ :: _ :: _ :: _ :: _ => Err (TypeError "too many positional arguments")
    | [_; _] => Err (TypeError "missing required argument: others")
    | [_] => Err (TypeError "missing required argument: ids")
    | [] => Err (TypeError "missing required argument: similarities")
    end /\
    (forall a b c,
        VectorIndexQueryResult_init [a; b] [("others", c)] =
          Ok {| similarities := a; ids := b; others := c |}).
Proof.
  intros args. split.
  - destruct args as [| a [| b [| c [| d args]]]]; reflexivity.
  - intros a b c. reflexivity.
Qed.

(** ** [create]: the ways it fails *)

(** When the class exists and the client fails to delete it, [create]
    raises that exception and never asks for the new class: the
    collection is left to whatever the failed deletion left. *)
Theorem create_stops_when_delete_fails :
  forall (S : Type) (h : Handler S) (self : WeaviateVectorStore)
         (vectorizer properties module_config : PyVal) (w : World S)
         (found : PyVal) (e : PyError) (s1 s2 : S),
    h (on_client (_client self) (schema_exists (PStr (_collection_name self))))
      (remote w) = (Ok found, s1) ->
    truthy found = true ->
    h (on_client (_client self) (schema_delete_class (PStr (_collection_name self))))
      s1 = (Err e, s2) ->
    run h (create self vectorizer properties module_config) w
      = (Err e, set_remote w s2) /\
    calls h (create self vectorizer properties module_config) w =
      [on_client (_client self) (schema_exists (PStr (_collection_name self)));
       on_client (_client self) (schema_delete_class (PStr (_collection_name self)))].
Proof.
  intros S h self vectorizer properties module_config w found e s1 s2 Hex Hfound Hdel.
  unfold create. split; simpl; rewrite Hex; simpl; rewrite Hfound; simpl;
    rewrite Hdel; reflexivity.
Qed.

(** [create_stops_when_delete_fails] against a remote that refuses to
    delete classes: ["Docs"] and its object are still there. *)
Lemma create_stops_when_delete_fails_witness :
  run (failing is_delete_class (serve flat_scan false))
      (create (store "Docs") (PStr "none") PNone PNone) docs_world =
    (Err (ClientError "refused"), docs_world).
Proof.
  exact (proj1 (create_stops_when_delete_fails Remote
                  (failing is_delete_class (serve flat_scan false)) (store "Docs")
                  (PStr "none") PNone PNone docs_world (PBool true)
                  (ClientError "refused") docs_remote docs_remote
                  eq_refl eq_refl eq_refl)).
Defined.

(** [create] is not atomic. When the class exists, is deleted, and the
    client then fails to create the new class, [create] raises that
    exception after the deletion has taken place: what is left is the
    remote without the old collection. *)
Theorem create_can_lose_the_collection :
  forall (S : Type) (h : Handler S) (self : WeaviateVectorStore)
         (vectorizer properties module_config : PyVal) (w : World S)
         (found gone : PyVal) (e : PyError) (s1 s2 s3 : S),
    h (on_client (_client self) (schema_exists (PStr (_collection_name self))))
      (remote w) = (Ok found, s1) ->
    truthy found = true ->
    h (on_client (_client self) (schema_delete_class (PStr (_collection_name self))))
      s1 = (Ok gone, s2) ->
    h (on_client (_client self)
         (schema_create_class (collection_obj self vectorizer properties module_config)))
      s2 = (Err e, s3) ->
    run h (create self vectorizer properties module_config) w
      = (Err e, set_remote w s3) /\
    calls h (create self vectorizer properties module_config) w =
      [on_client (_client self) (schema_exists (PStr (_collection_name self)));
       on_client (_client self) (schema_delete_class (PStr (_collection_name self)));
       on_client (_client self)
         (schema_create_class (collection_obj self vectorizer properties module_config))].
Proof.
  intros S h self vectorizer properties module_config w found gone e s1 s2 s3
         Hex Hfound Hdel Hcre.
  unfold create. split; simpl; rewrite Hex; simpl; rewrite Hfound; simpl;
    rewrite Hdel; simpl;
    change (PDict [("class", PStr (_collection_name self));
                   ("properties", py_or properties (PList []));
                   ("vectorizer", vectorizer);
                   ("moduleConfig", py_or module_config (PDict []))])
      with (collection_obj self vectorizer properties module_config);
    rewrite Hcre; reflexivity.
Qed.

(** [create_can_lose_the_collection] against a remote that refuses to
    create classes: after the failed [create], ["Docs"] is gone. *)
Lemma create_can_lose_the_collection_witness :
  run (failing is_create_class (serve flat_scan false))
      (create (store "Docs") (PStr "none") PNone PNone) docs_world =
    (Err (ClientError "refused"),
     set_remote docs_world {| collections := ∅; next_uuid := 1 |}).
Proof.
  exact (proj1 (create_can_lose_the_collection Remote
                  (failing is_create_class (serve flat_scan false)) (store "Docs")
                  (PStr "none") PNone PNone docs_world (PBool true) PNone
                  (ClientError "refused") docs_remote
                  {| collections := ∅; next_uuid := 1 |}
                  {| collections := ∅; next_uuid := 1 |}
                  eq_refl eq_refl eq_refl eq_refl)).
Defined.

(** ** Payload fields the searches do not read *)

(** [hybrid_search] reads neither [autocut] nor [additional] from its
    payload (it always asks for ["distance"] as the one additional
    property), [keyword_search] does not read [additional], and
    [generative_search] without [grouped_task] does not read
    [grouped_properties]: payloads that differ only there run alike. *)
Theorem unread_payload_fields :
  forall (S : Type) (h : Handler S) (self : WeaviateVectorStore) (w : World S)
         (q p : string) (props gp gp' add add' : option (list string))
         (lim : Z) (cut cut' : option Z),
    run h (hybrid_search self
             {| sq_query := q; sq_properties := props; sq_limit := lim;
                sq_autocut := cut; sq_additional := add |}) w
    = run h (hybrid_search self
               {| sq_query := q; sq_properties := props; sq_limit := lim;
                  sq_autocut := cut'; sq_additional := add' |}) w /\
    last (clauses (hybrid_request self
                     {| sq_query := q; sq_properties := props; sq_limit := lim;
                        sq_autocut := cut; sq_additional := add |}))
      = Some (with_additional (PList [PStr "distance"])) /\
    run h (keyword_search self
             {| sq_query := q; sq_properties := props; sq_limit := lim;
                sq_autocut := cut; sq_additional := add |}) w
    = run h (keyword_search self
               {| sq_query := q; sq_properties := props; sq_limit := lim;
                  sq_autocut := cut; sq_additional := add' |}) w /\
    run h (generative_search self
             {| g_query := q; prompt := p; g_properties := props; g_limit := lim;
                grouped_task := false; grouped_properties := gp |}) w
    = run h (generative_search self
               {| g_query := q; prompt := p; g_properties := props; g_limit := lim;
                  grouped_task := false; grouped_properties := gp' |}) w.
Proof. intros. repeat split. Qed.
